(** * Socket chat client: the connection manager of [app/page.tsx]

    A shallow embedding of the [SocketClient] component: its React state,
    its two refs, the WebSocket objects and timers it creates, and every
    callback that mutates them.  Callbacks are functions from worlds to
    worlds; what a callback reads from the render in which it was created
    (the [const]s of [useState]) is passed explicitly as its [Scope]. *)

From Stdlib Require Import String Ascii NArith DecimalString.
From stdpp Require Import base option list gmap.

Local Open Scope nat_scope.

(** ** JavaScript strings *)

(** A JavaScript string is a sequence of UTF-16 code units; [length],
    indexing and [slice] count code units. *)
Abbreviation codeunit := N (only parsing).
Abbreviation jsstring := (list N) (only parsing).

(** A literal made of ASCII characters only. *)
Definition js (s : string) : jsstring :=
  map N_of_ascii (list_ascii_of_string s).

Arguments js : simpl never.

(** The decimal rendering of a number inside a template literal. *)
Definition digits (n : nat) : jsstring :=
  js (NilZero.string_of_uint (Nat.to_uint n)).

(** [String.prototype.trim] strips WhiteSpace and LineTerminator code
    points (all of them lie in the basic plane) from both ends. *)
Definition isWhiteSpace (c : codeunit) : bool :=
  ((c =? 9) || (c =? 10) || (c =? 11) || (c =? 12) || (c =? 13) || (c =? 32)
   || (c =? 160) || (c =? 5760) || ((8192 <=? c) && (c <=? 8202))
   || (c =? 8232) || (c =? 8233) || (c =? 8239) || (c =? 8287)
   || (c =? 12288) || (c =? 65279))%N.

Fixpoint trimStart (s : jsstring) : jsstring :=
  match s with
  | c :: rest => if isWhiteSpace c then trimStart rest else s
  | [] => []
  end.

Definition trimEnd (s : jsstring) : jsstring := rev (trimStart (rev s)).

Definition trim (s : jsstring) : jsstring := trimEnd (trimStart s).

(** Truthiness of a string: the empty string is the only falsy one. *)
Definition truthy (s : jsstring) : bool :=
  match s with [] => false | _ :: _ => true end.

(** [message[0]] on a string with at least one code unit, and
    [message.slice(1)]. *)
Definition charAt0 (s : jsstring) : jsstring := take 1 s.
Definition slice1 (s : jsstring) : jsstring := drop 1 s.

(** ** What the host provides

    Two built-ins of the JavaScript host are used by the component and are
    not part of the repository: the Unicode case mapping behind
    [String.prototype.toUpperCase], and the URL check of the [WebSocket]
    constructor, which throws (with some message) on a URL it rejects. *)
Class JsHost := {
  toUpperCase : jsstring -> jsstring;
  wsConstructorError : jsstring -> option jsstring
}.

(** ** ProtocolSimulator: [mockServerResponse] *)

Definition emptyReply : jsstring := js "Empty message received".

(** Surrogate code units: a high one followed by a low one is one
    character outside the basic plane. *)
Definition isHighSurrogate (c : codeunit) : bool :=
  ((55296 <=? c) && (c <=? 56319))%N.
Definition isLowSurrogate (c : codeunit) : bool :=
  ((56320 <=? c) && (c <=? 57343))%N.

Definition startsWithPair (s : jsstring) : bool :=
  match s with
  | h :: l :: _ => isHighSurrogate h && isLowSurrogate l
  | _ => false
  end.

(** The first character of a string, as a reader of the specification
    counts characters (a surrogate pair is one), and what follows it. *)
Definition firstCharacter (s : jsstring) : jsstring * jsstring :=
  if startsWithPair s then (take 2 s, drop 2 s) else (take 1 s, drop 1 s).

Section Simulator.
Context `{JsHost}.

Definition mockServerResponse (message : jsstring) : jsstring :=
  if negb (truthy message) then emptyReply
  else if length message =? 1 then toUpperCase message
  else toUpperCase (charAt0 message) ++ slice1 message.

(** The transform as the specification words it: the fixed string on the
    empty input; the one character upper-cased when there is exactly one;
    otherwise the first character upper-cased, followed by the remaining
    characters unchanged. *)
Definition transform_spec (input : jsstring) : jsstring :=
  match input with
  | [] => js "Empty message received"
  | _ :: _ =>
      match firstCharacter input with
      | (first, []) => toUpperCase first
      | (first, rest) => toUpperCase first ++ rest
      end
  end.

End Simulator.

(** A host for closed examples.  Its [toUpperCase] is ECMAScript's on
    strings made of code units below 256, of Deseret letters (the block
    U+10400 to U+1044F, written as surrogate pairs) and of lone
    surrogates; other code units it leaves alone.  Below 256 the letters
    [a]-[z] and U+00E0 to U+00FE (but for the division sign) move down by
    32, the micro sign becomes the Greek capital mu, [y] with diaeresis
    becomes U+0178, and the sharp s becomes [SS]; a surrogate that is not
    part of a pair is unchanged.  Its constructor check accepts a URL that
    starts with [ws:], [wss:], [http:] or [https:] and throws on the
    others. *)
Definition latin1Upper (c : codeunit) : jsstring :=
  if ((97 <=? c) && (c <=? 122))%N then [c - 32]%N
  else if (c =? 181)%N then [924]%N
  else if (c =? 223)%N then [83; 83]%N
  else if ((224 <=? c) && (c <=? 254) && negb (c =? 247))%N then [c - 32]%N
  else if (c =? 255)%N then [376]%N
  else [c].

Definition isDeseretSmall (h l : codeunit) : bool :=
  ((h =? 55297) && (56360 <=? l) && (l <=? 56399))%N.

Fixpoint upperCaseUnits (s : jsstring) : jsstring :=
  match s with
  | [] => []
  | h :: tl =>
      match tl with
      | l :: rest =>
          if isDeseretSmall h l then h :: (l - 40)%N :: upperCaseUnits rest
          else latin1Upper h ++ upperCaseUnits tl
      | [] => latin1Upper h
      end
  end.

Fixpoint isPrefix (p s : jsstring) : bool :=
  match p, s with
  | [], _ => true
  | a :: p', b :: s' => (a =? b)%N && isPrefix p' s'
  | _ :: _, [] => false
  end.

Definition exampleHost : JsHost := {|
  toUpperCase := upperCaseUnits;
  wsConstructorError url :=
    if isPrefix (js "ws:") url || isPrefix (js "wss:") url
       || isPrefix (js "http:") url || isPrefix (js "https:") url
    then None
    else Some (js "The URL's scheme must be either 'http', 'https', 'ws', or 'wss'.")
|}.

(** ** Data model *)

Inductive MessageType := sent | received | system.

(** An entry of the message log.  The [id] and [timestamp] fields of the
    source are read from the clock and a random source; no callback ever
    reads them back, and they are left out. *)
Record Message := mkMessage { type : MessageType; content : jsstring }.

Inductive ReadyState := CONNECTING | OPEN | CLOSING | CLOSED.

#[global] Instance ReadyState_eq_dec : EqDecision ReadyState.
Proof. solve_decision. Defined.

(** The [const]s of one render that the callbacks created in that render
    read: [message], [isConnected], [serverUrl], [isConnecting],
    [useMockServer] and [retryCount] are plain [const]s of the component
    function, bound anew at every render, and a callback closes over the
    bindings of the render that created it.  The page always calls the
    callbacks of the current render.  The handlers that [connectToServer]
    installs on a socket, and the arrow function it hands to [setTimeout]
    for a retry, are created inside one call of [connectToServer] and keep
    that call's scope; the name [connectToServer] inside them is the
    [const] of that same render, so a retry runs the same callback, with
    the same scope, again.  The setters and the two refs are shared by all
    renders and always act on the current world. *)
Record Scope := mkScope {
  c_message : jsstring;
  c_isConnected : bool;
  c_serverUrl : jsstring;
  c_isConnecting : bool;
  c_useMockServer : bool;
  c_retryCount : nat
}.

(** A [WebSocket] object: its URL, its [readyState], the scope its four
    handlers were created in, the data handed to [send], and the arguments
    of the [close] call that started its closing, if any. *)
Record WebSocket := mkWebSocket {
  url : jsstring;
  readyState : ReadyState;
  handlers : Scope;
  outbox : list jsstring;
  closedWith : option (option (nat * jsstring))
}.

(** The three kinds of timer body the component hands to [setTimeout]. *)
Inductive TimerBody :=
  | RetryConnect (sc : Scope)      (* () => { connectToServer() } *)
  | ConnectTimeout (ws : nat)      (* the 5000 ms check on socket [ws] *)
  | MockReply (response : jsstring). (* addMessage("received", response) *)

Record Timer := mkTimer { delay : nat; body : TimerBody }.

(** The component: React state, the two refs, and the sockets and timers
    created so far.  A socket is named by its position in [sockets], a
    timer by the identifier [setTimeout] gave it; a ref that holds either
    is truthy. *)
Record World := mkWorld {
  message : jsstring;
  messages : list Message;
  isConnected : bool;
  connectionStatus : jsstring;
  serverUrl : jsstring;
  isConnecting : bool;
  error : option jsstring;
  useMockServer : bool;
  retryCount : nat;
  wsRef : option nat;
  retryTimeoutRef : option nat;
  sockets : list WebSocket;
  timers : gmap nat Timer;
  nextTimerId : nat
}.

Definition maxRetries : nat := 3.

Definition initial : World := {|
  message := [];
  messages := [];
  isConnected := false;
  connectionStatus := js "Disconnected";
  serverUrl := js "ws://localhost:8765";
  isConnecting := false;
  error := None;
  useMockServer := false;
  retryCount := 0;
  wsRef := None;
  retryTimeoutRef := None;
  sockets := [];
  timers := ∅;
  nextTimerId := 1
|}.

(** The scope of the current render, which is the one a callback invoked
    from the page (a click, a key press) runs in. *)
Definition scope_of (w : World) : Scope := {|
  c_message := message w;
  c_isConnected := isConnected w;
  c_serverUrl := serverUrl w;
  c_isConnecting := isConnecting w;
  c_useMockServer := useMockServer w;
  c_retryCount := retryCount w
|}.

(** ** State setters and ref assignments *)

Definition setMessage (v : jsstring) '(mkWorld _ b c d e f g h i j k l m n) :=
  mkWorld v b c d e f g h i j k l m n.
Definition setMessages (v : list Message) '(mkWorld a _ c d e f g h i j k l m n) :=
  mkWorld a v c d e f g h i j k l m n.
Definition setIsConnected (v : bool) '(mkWorld a b _ d e f g h i j k l m n) :=
  mkWorld a b v d e f g h i j k l m n.
Definition setConnectionStatus (v : jsstring) '(mkWorld a b c _ e f g h i j k l m n) :=
  mkWorld a b c v e f g h i j k l m n.
Definition setServerUrl (v : jsstring) '(mkWorld a b c d _ f g h i j k l m n) :=
  mkWorld a b c d v f g h i j k l m n.
Definition setIsConnecting (v : bool) '(mkWorld a b c d e _ g h i j k l m n) :=
  mkWorld a b c d e v g h i j k l m n.
Definition setError (v : option jsstring) '(mkWorld a b c d e f _ h i j k l m n) :=
  mkWorld a b c d e f v h i j k l m n.
Definition setUseMockServer (v : bool) '(mkWorld a b c d e f g _ i j k l m n) :=
  mkWorld a b c d e f g v i j k l m n.
Definition setRetryCount (v : nat) '(mkWorld a b c d e f g h _ j k l m n) :=
  mkWorld a b c d e f g h v j k l m n.
Definition assignWsRef (v : option nat) '(mkWorld a b c d e f g h i _ k l m n) :=
  mkWorld a b c d e f g h i v k l m n.
Definition assignRetryTimeoutRef (v : option nat) '(mkWorld a b c d e f g h i j _ l m n) :=
  mkWorld a b c d e f g h i j v l m n.
Definition withSockets (v : list WebSocket) '(mkWorld a b c d e f g h i j k _ m n) :=
  mkWorld a b c d e f g h i j k v m n.
Definition withTimers (v : gmap nat Timer) (next : nat) '(mkWorld a b c d e f g h i j k l _ _) :=
  mkWorld a b c d e f g h i j k l v next.

(** ** Timers and sockets *)

(** [setTimeout(body, delay)]: the new timer gets the next identifier. *)
Definition setTimeout (t : Timer) (w : World) : World :=
  withTimers (<[nextTimerId w := t]> (timers w)) (S (nextTimerId w)) w.

(** [clearTimeout(id)]: a pending timer is dropped, anything else ignored. *)
Definition clearTimeout (id : nat) (w : World) : World :=
  withTimers (delete id (timers w)) (nextTimerId w) w.

(** [ws.close(code?, reason?)]: a socket that is connecting or open starts
    closing; on a socket already closing or closed the call does nothing. *)
Definition closeSocket (args : option (nat * jsstring)) (s : WebSocket) : WebSocket :=
  match readyState s with
  | CONNECTING | OPEN =>
      mkWebSocket (url s) CLOSING (handlers s) (outbox s) (Some args)
  | CLOSING | CLOSED => s
  end.

Definition ws_close (id : nat) (args : option (nat * jsstring)) (w : World) : World :=
  withSockets (alter (closeSocket args) id (sockets w)) w.

Definition ws_send (id : nat) (data : jsstring) (w : World) : World :=
  withSockets
    (alter (fun s => mkWebSocket (url s) (readyState s) (handlers s)
                       (outbox s ++ [data]) (closedWith s)) id (sockets w)) w.

Definition withReadyState (id : nat) (r : ReadyState) (w : World) : World :=
  withSockets
    (alter (fun s => mkWebSocket (url s) r (handlers s) (outbox s)
                       (closedWith s)) id (sockets w)) w.

Definition readyStateOf (id : nat) (w : World) : option ReadyState :=
  readyState <$> sockets w !! id.

(** [wsRef.current && wsRef.current.readyState === WebSocket.OPEN]: the ref
    holds a socket and that socket is open. *)
Definition handleOpen (w : World) : bool :=
  match wsRef w with
  | Some ws => bool_decide (readyStateOf ws w = Some OPEN)
  | None => false
  end.

(** [new WebSocket(url)] with its handlers created in scope [sc]. *)
Definition newSocket (address : jsstring) (sc : Scope) (w : World) : World :=
  withSockets (sockets w ++ [mkWebSocket address CONNECTING sc [] None]) w.

(** ** The callbacks *)

Definition addMessage (t : MessageType) (text : jsstring) (w : World) : World :=
  setMessages (messages w ++ [mkMessage t text]) w.

Definition greenCircle : jsstring := [55357; 57314]%N.   (* U+1F7E2 *)
Definition redCircle : jsstring := [55357; 56628]%N.     (* U+1F534 *)
Definition warningSign : jsstring := [9888; 65039]%N.    (* U+26A0 U+FE0F *)
Definition crossMark : jsstring := [10060]%N.            (* U+274C *)

Definition retryingText (nextRetry : nat) : jsstring :=
  js "Connection lost. Retrying... (" ++ digits nextRetry ++ js "/"
    ++ digits maxRetries ++ js ")".

Definition terminalText : jsstring :=
  js "Failed to connect after multiple attempts. Try using Mock Server or check if Python server is running.".

Definition timeoutText : jsstring :=
  js "Connection timeout. Server may not be running.".

Definition notConnectedText : jsstring :=
  js "Not connected to server. Please connect first.".

Definition serverDownText (sc : Scope) : jsstring :=
  js "Failed to connect to Python server. Make sure the server is running on "
    ++ c_serverUrl sc.

(** [ws.onopen] *)
Definition onopen (w : World) : World :=
  addMessage system (greenCircle ++ js " Connected to Python WebSocket server")
    (setRetryCount 0
      (setError None
        (setIsConnecting false
          (setConnectionStatus (js "Connected")
            (setIsConnected true w))))).

(** [ws.onmessage] *)
Definition onmessage (data : jsstring) (w : World) : World :=
  addMessage received data w.

(** [ws.onclose], created in scope [sc]; the timer it schedules calls the
    [connectToServer] of that same scope. *)
Definition onclose (sc : Scope) (wasClean : bool) (w : World) : World :=
  let w := assignWsRef None (setIsConnecting false (setIsConnected false w)) in
  if wasClean then
    addMessage system (redCircle ++ js " Connection closed")
      (setConnectionStatus (js "Disconnected") w)
  else
    let w := addMessage system (warningSign ++ js " Connection lost unexpectedly")
               (setConnectionStatus (js "Connection Lost") w) in
    if c_retryCount sc <? maxRetries then
      let nextRetry := c_retryCount sc + 1 in
      let w := setError (Some (retryingText nextRetry))
                 (setRetryCount nextRetry w) in
      let id := nextTimerId w in
      assignRetryTimeoutRef (Some id)
        (setTimeout (mkTimer (2000 * nextRetry) (RetryConnect sc)) w)
    else
      setError (Some terminalText) w.

(** [ws.onerror], created in scope [sc]. *)
Definition onerror (sc : Scope) (w : World) : World :=
  addMessage system (crossMark ++ js " " ++ serverDownText sc)
    (setError (Some (serverDownText sc))
      (setIsConnecting false
        (setConnectionStatus (js "Connection Error") w))).

(** The body of the connection timeout set for socket [ws]. *)
Definition connectTimeout (ws : nat) (w : World) : World :=
  match readyStateOf ws w with
  | Some CONNECTING =>
      setError (Some timeoutText) (setIsConnecting false (ws_close ws None w))
  | _ => w
  end.

Section Manager.
Context `{JsHost}.

Definition connectToServer (sc : Scope) (w : World) : World :=
  if c_isConnecting sc then w
  else
    let w := setError None (setIsConnecting true w) in
    (* Clear any existing retry timeout *)
    let w := match retryTimeoutRef w with
             | Some id => assignRetryTimeoutRef None (clearTimeout id w)
             | None => w
             end in
    (* Close existing connection if any *)
    let w := match wsRef w with
             | Some id => assignWsRef None (ws_close id None w)
             | None => w
             end in
    if c_useMockServer sc then
      addMessage system
        (greenCircle ++ js " Connected to Mock Server (Python server not required)")
        (setRetryCount 0
          (setError None
            (setIsConnecting false
              (setConnectionStatus (js "Connected (Mock Server)")
                (setIsConnected true w)))))
    else
      match wsConstructorError (c_serverUrl sc) with
      | Some thrown =>
          addMessage system (crossMark ++ js " Failed to establish connection")
            (setError (Some (js "Failed to establish connection: " ++ thrown))
              (setIsConnecting false
                (setConnectionStatus (js "Connection Failed") w)))
      | None =>
          let ws := length (sockets w) in
          let w := assignWsRef (Some ws) (newSocket (c_serverUrl sc) sc w) in
          setTimeout (mkTimer 5000 (ConnectTimeout ws)) w
      end.

Definition sendMessage (sc : Scope) (w : World) : World :=
  if negb (truthy (trim (c_message sc))) then w
  else if c_useMockServer sc then
    let w := addMessage sent (c_message sc) w in
    let response := mockServerResponse (c_message sc) in
    let w := setTimeout (mkTimer 100 (MockReply response)) w in
    setMessage [] w
  else
    match wsRef w with
    | Some ws =>
        match readyStateOf ws w with
        | Some OPEN =>
            setMessage [] (addMessage sent (c_message sc)
                             (ws_send ws (c_message sc) w))
        | _ => setError (Some notConnectedText) w
        end
    | None => setError (Some notConnectedText) w
    end.

Definition closeConnection (sc : Scope) (w : World) : World :=
  let w := match retryTimeoutRef w with
           | Some id => assignRetryTimeoutRef None (clearTimeout id w)
           | None => w
           end in
  if c_useMockServer sc then
    addMessage system (redCircle ++ js " Disconnected from Mock Server")
      (setError None
        (setConnectionStatus (js "Disconnected")
          (setIsConnected false w)))
  else
    let w := match wsRef w with
             | Some id =>
                 assignWsRef None
                   (ws_close id (Some (1000, js "User closed connection")) w)
             | None => w
             end in
    setRetryCount 0
      (setError None
        (setConnectionStatus (js "Disconnected")
          (setIsConnected false w))).

Definition clearMessages (w : World) : World := setMessages [] w.

(** [closeConnection] here is the one of the current render, so it still
    sees the mode from before the switch. *)
Definition toggleMockServer (sc : Scope) (enabled : bool) (w : World) : World :=
  let w := setUseMockServer enabled w in
  let w := if c_isConnected sc then closeConnection sc w else w in
  setRetryCount 0 (setError None w).

(** ** The event loop

    One event is handled at a time.  Page events run the callback of the
    current render; socket events run the handlers stored on the socket;
    a timer that fires is removed and its body is run. *)
Inductive Event :=
  | Click_connect
  | Click_disconnect
  | Click_send
  | Click_clear
  | Toggle_mock (enabled : bool)
  | Type_message (text : jsstring)
  | Type_url (text : jsstring)
  | Ws_open (ws : nat)
  | Ws_message (ws : nat) (data : jsstring)
  | Ws_error (ws : nat)
  | Ws_close (ws : nat) (wasClean : bool)
  | Timer_fires (id : nat).

Definition runTimer (b : TimerBody) (w : World) : World :=
  match b with
  | RetryConnect sc => connectToServer sc w
  | ConnectTimeout ws => connectTimeout ws w
  | MockReply response => addMessage received response w
  end.

Definition step (ev : Event) (w : World) : World :=
  match ev with
  | Click_connect => connectToServer (scope_of w) w
  | Click_disconnect => closeConnection (scope_of w) w
  | Click_send => sendMessage (scope_of w) w
  | Click_clear => clearMessages w
  | Toggle_mock enabled => toggleMockServer (scope_of w) enabled w
  | Type_message text => setMessage text w
  | Type_url text => setServerUrl text w
  | Ws_open ws =>
      match readyStateOf ws w with
      | Some CONNECTING => onopen (withReadyState ws OPEN w)
      | _ => w
      end
  | Ws_message ws data =>
      match readyStateOf ws w with
      | Some OPEN => onmessage data w
      | _ => w
      end
  | Ws_error ws =>
      match sockets w !! ws with
      | Some s => onerror (handlers s) w
      | None => w
      end
  | Ws_close ws wasClean =>
      match sockets w !! ws with
      | Some s =>
          match readyState s with
          | CLOSED => w
          | _ => onclose (handlers s) wasClean (withReadyState ws CLOSED w)
          end
      | None => w
      end
  | Timer_fires id =>
      match timers w !! id with
      | Some t => runTimer (body t) (clearTimeout id w)
      | None => w
      end
  end.

Definition run (evs : list Event) (w : World) : World :=
  foldl (fun w ev => step ev w) w evs.

(** What the page offers in world [w]: the buttons that are rendered and
    the inputs that are not disabled. *)
Definition offered (ev : Event) (w : World) : bool :=
  match ev with
  | Click_connect =>
      negb (isConnecting w)
      && (negb (isConnected w)
          || (bool_decide (is_Some (error w)) && (retryCount w <? maxRetries)))
  | Click_disconnect => isConnected w
  | Click_send => isConnected w
  | Click_clear => negb (bool_decide (messages w = []))
  | Toggle_mock _ => negb (isConnected w)
  | Type_message _ => isConnected w
  | Type_url _ =>
      negb (useMockServer w) && negb (isConnected w || isConnecting w)
  | _ => true
  end.

(** A whole sequence of events can be played from [w]: each page event
    is offered in the world it is played in. *)
Fixpoint offeredAll (evs : list Event) (w : World) : bool :=
  match evs with
  | [] => true
  | ev :: rest => offered ev w && offeredAll rest (step ev w)
  end.

End Manager.

(** ** Auxiliary notions and scenarios *)

Definition userClosed : option (nat * jsstring) :=
  Some (1000, js "User closed connection").

(** The retry timer the ref points to is dropped and the ref is emptied. *)
Definition cancelRetry (w : World) : World :=
  match retryTimeoutRef w with
  | Some id => assignRetryTimeoutRef None (clearTimeout id w)
  | None => w
  end.



(** A simulated session that was connected, had ["hi"] typed into the draft
    and was then disconnected. *)
Definition mockDisconnected : World :=
  @run exampleHost
    [Toggle_mock true; Click_connect; Type_message (js "hi"); Click_disconnect]
    initial.

(** One failed attempt on socket [k] followed by the automatic retry: the
    transport reports an error, then an unclean close, and the retry timer
    set by the close handler fires. *)
Definition failedAttempt (k : nat) : list Event :=
  [Ws_error k; Ws_close k false; Timer_fires (2 * k + 2)].

Fixpoint failedAttempts (n : nat) : list Event :=
  match n with
  | 0 => []
  | S k => failedAttempts k ++ failedAttempt k
  end.

Definition isUncleanClose (ev : Event) : bool :=
  match ev with Ws_close _ false => true | _ => false end.

(** The user clicks Connect once, in live mode, and [n] attempts fail. *)
Definition unattended (n : nat) : list Event :=
  Click_connect :: failedAttempts n.

(** Attempt [n] is under way: socket [n] is the current handle, it is
    connecting, and its handlers still carry the scope of the first
    click. *)
Definition attempting (n : nat) (w : World) : Prop :=
  wsRef w = Some n
  /\ sockets w !! n
     = Some (mkWebSocket (serverUrl initial) CONNECTING (scope_of initial) [] None)
  /\ length (sockets w) = S n
  /\ nextTimerId w = 2 * n + 2.

(** The bound that every retry count in the world respects: the state's
    own, the one each socket's handlers carry, and the one each pending
    retry carries. *)
Definition boundedTimer (t : Timer) : Prop :=
  match body t with
  | RetryConnect sc => c_retryCount sc <= maxRetries
  | _ => True
  end.

Definition bounded (w : World) : Prop :=
  retryCount w <= maxRetries
  /\ Forall (fun s => c_retryCount (handlers s) <= maxRetries) (sockets w)
  /\ map_Forall (fun _ t => boundedTimer t) (timers w).

(** ** The rest of the page: key presses, unmounting, the statistics *)

#[global] Instance MessageType_eq_dec : EqDecision MessageType.
Proof. solve_decision. Defined.

(** What [handleKeyPress] reads of a keyboard event. *)
Record KeyboardEvent := mkKey { key : jsstring; shiftKey : bool }.

Definition isEnter (e : KeyboardEvent) : bool :=
  bool_decide (key e = js "Enter") && negb (shiftKey e).

(** [handleKeyPress]: the new world, and whether [preventDefault] was
    called. *)
Definition handleKeyPress `{JsHost} (sc : Scope) (e : KeyboardEvent) (w : World)
  : World * bool :=
  if isEnter e then (sendMessage sc w, true) else (w, false).

(** The cleanup of the mount effect: it reads the two refs as they are at
    unmount, clears the timer and closes the socket, and assigns
    nothing. *)
Definition unmountCleanup (w : World) : World :=
  let w := match retryTimeoutRef w with
           | Some id => clearTimeout id w
           | None => w
           end in
  match wsRef w with
  | Some ws => ws_close ws None w
  | None => w
  end.

(** [messages.filter((m) => m.type === t).length], the counters of the
    statistics panels. *)
Definition countOf (t : MessageType) (log : list Message) : nat :=
  length (filter (fun m => type m = t) log).

(** [messages.filter((m) => m.type === t).slice(-1)[0]?.content], the last
    message of a kind shown in the data-flow panel; [None] is
    [undefined]. *)
Definition lastOf (t : MessageType) (log : list Message) : option jsstring :=
  content <$> last (filter (fun m => type m = t) log).

(** Simulated replies that are still on their way. *)
Definition isReply (t : Timer) : bool :=
  match body t with MockReply _ => true | _ => false end.

Definition repliesOf (tm : gmap nat Timer) : nat :=
  size (filter (fun kv : nat * Timer => isReply kv.2 = true) tm).

Definition pendingReplies (w : World) : nat := repliesOf (timers w).

(** Events of a session in which the server pushes nothing and the log is
    not cleared. *)
Definition neitherPushNorClear (ev : Event) : bool :=
  match ev with
  | Ws_message _ _ | Click_clear => false
  | _ => true
  end.

(** Timer identifiers are handed out in increasing order, the retry ref
    never points at a simulated reply, and every received message and
    every reply on its way answers a sent message of its own. *)
Definition accounted (log : list Message) (tm : gmap nat Timer)
    (next : nat) (ref : option nat) : Prop :=
  (forall id t, tm !! id = Some t -> id < next)
  /\ (forall id, ref = Some id ->
        id < next /\ forall t, tm !! id = Some t -> isReply t = false)
  /\ countOf received log + repliesOf tm <= countOf sent log.

Definition repliesAccounted (w : World) : Prop :=
  accounted (messages w) (timers w) (nextTimerId w) (retryTimeoutRef w).

(** Every pending retry waits [2000 * (n + 1)] ms, where [n], the count its
    scope carries, is below [maxRetries]. *)
Definition retryDelaysLinear (w : World) : Prop :=
  forall id d sc, timers w !! id = Some (mkTimer d (RetryConnect sc)) ->
    c_retryCount sc < maxRetries /\ d = 2000 * (c_retryCount sc + 1).

(** The log grows by at most one message. *)
Definition grows (w w' : World) : Prop :=
  exists added, messages w' = messages w ++ added /\ length added <= 1.

(** No retry is pending in [w'] that was not already pending in [w]. *)
Definition noNewRetry (w w' : World) : Prop :=
  forall id d sc, timers w' !! id = Some (mkTimer d (RetryConnect sc)) ->
    timers w !! id = Some (mkTimer d (RetryConnect sc)).

(** The three recoverable error kinds. *)
Inductive ErrorKind := ConnectTimeoutError | TransportError | UncleanClose.

(** How attempt [k] fails with an error of a given kind: the connection
    timeout fires and closes the socket, or the transport signals an error,
    or nothing precedes; in each case the transport then reports the close,
    without the clean flag. *)
Definition failureBy (kind : ErrorKind) (k : nat) : list Event :=
  match kind with
  | ConnectTimeoutError => [Timer_fires (2 * k + 1); Ws_close k false]
  | TransportError => [Ws_error k; Ws_close k false]
  | UncleanClose => [Ws_close k false]
  end.

(** Attempts [k], [k + 1], ... fail with the given kinds, each followed by
    the retry that its close scheduled. *)
Fixpoint failuresFrom (k : nat) (kinds : list ErrorKind) : list Event :=
  match kinds with
  | [] => []
  | kind :: rest =>
      failureBy kind k ++ Timer_fires (2 * k + 2) :: failuresFrom (S k) rest
  end.

(** Attempt [n] is under way and its connection timeout is pending. *)
Definition attemptingTimed (n : nat) (w : World) : Prop :=
  attempting n w
  /\ timers w !! (2 * n + 1) = Some (mkTimer 5000 (ConnectTimeout n)).

(** Attempt [n] has just failed: retry 1 of 3 is announced and scheduled
    2000 ms away, in the scope of the first click. *)
Definition retryingAgain (n : nat) (w : World) : Prop :=
  timers w !! (2 * n + 2)
    = Some (mkTimer 2000 (RetryConnect (scope_of initial)))
  /\ retryCount w = 1
  /\ error w = Some (retryingText 1)
  /\ retryTimeoutRef w = Some (2 * n + 2)
  /\ wsRef w = None
  /\ length (sockets w) = S n
  /\ nextTimerId w = 2 * n + 3.

Definition isRetry (t : Timer) : bool :=
  match body t with RetryConnect _ => true | _ => false end.

(** Timer identifiers are handed out in increasing order, and the only
    identifier the retry ref ever holds is that of a retry. *)
Definition tidy (tm : gmap nat Timer) (next : nat) (ref : option nat) : Prop :=
  (forall id t, tm !! id = Some t -> id < next)
  /\ (forall id, ref = Some id ->
        id < next /\ forall t, tm !! id = Some t -> isRetry t = true).

Definition timersTidy (w : World) : Prop :=
  tidy (timers w) (nextTimerId w) (retryTimeoutRef w).

(** * Theorems *)

Ltac unfold_world w :=
  destruct w; simpl in *; repeat (case_match; simpl in *); subst; auto.

(** Unfolds the callbacks, the setters and the record projections, and
    nothing else: arithmetic and string literals stay as written. *)
Tactic Notation "world_cbn" :=
  cbn [message messages isConnected connectionStatus serverUrl isConnecting
       error useMockServer retryCount wsRef retryTimeoutRef sockets timers
       nextTimerId setMessage setMessages setIsConnected setConnectionStatus
       setServerUrl setIsConnecting setError setUseMockServer setRetryCount
       assignWsRef assignRetryTimeoutRef withSockets withTimers setTimeout
       clearTimeout ws_close ws_send withReadyState readyStateOf newSocket
       closeSocket addMessage onopen onmessage onclose onerror connectTimeout
       runTimer step run foldl scope_of initial c_message c_isConnected
       c_serverUrl c_isConnecting c_useMockServer c_retryCount url readyState
       handlers outbox closedWith delay body fmap option_fmap option_map
       Nat.ltb Nat.leb maxRetries].
Tactic Notation "world_cbn" "in" "*" :=
  cbn [message messages isConnected connectionStatus serverUrl isConnecting
       error useMockServer retryCount wsRef retryTimeoutRef sockets timers
       nextTimerId setMessage setMessages setIsConnected setConnectionStatus
       setServerUrl setIsConnecting setError setUseMockServer setRetryCount
       assignWsRef assignRetryTimeoutRef withSockets withTimers setTimeout
       clearTimeout ws_close ws_send withReadyState readyStateOf newSocket
       closeSocket addMessage onopen onmessage onclose onerror connectTimeout
       runTimer step run foldl scope_of initial c_message c_isConnected
       c_serverUrl c_isConnecting c_useMockServer c_retryCount url readyState
       handlers outbox closedWith delay body fmap option_fmap option_map
       Nat.ltb Nat.leb maxRetries] in *.


Section SimulatorFacts.
Context `{JsHost}.

(** C1 (amended): [mockServerResponse] returns exactly
    "Empty message received" on the empty input; on an input of exactly
    one UTF-16 code unit, that unit upper-cased; otherwise the upper-cased
    first code unit followed by the remaining code units unchanged.  It
    equals the reference transform on every input that does not begin with
    a surrogate pair.  For inputs longer than one code unit, the output's
    tail is the input's tail whenever the upper-cased first code unit is
    again a single code unit. *)
Theorem mockServerResponse_by_code_units :
  mockServerResponse [] = js "Empty message received"
  /\ (forall c, mockServerResponse [c] = toUpperCase [c])
  /\ (forall c d rest,
      mockServerResponse (c :: d :: rest) = toUpperCase [c] ++ d :: rest)
  /\ (forall message, startsWithPair message = false ->
      mockServerResponse message = transform_spec message)
  /\ (forall message, 1 < length message ->
      length (toUpperCase (charAt0 message)) = 1 ->
      drop 1 (mockServerResponse message) = drop 1 message).
Proof.
  split; [reflexivity|]. split; [reflexivity|]. split; [reflexivity|]. split.
  - intros [|c [|d rest]] Hpair; [reflexivity..|].
    unfold transform_spec, firstCharacter. by rewrite Hpair.
  - intros [|c [|d rest]]; simpl; try lia. intros _ Hone.
    unfold mockServerResponse. simpl. unfold charAt0 in Hone. simpl in Hone.
    rewrite <- Hone at 1. by rewrite drop_app_length.
Qed.

End SimulatorFacts.

(** C1 (counterexample): the sharp s upper-cases to two code units, so the
    output's tail is not the input's tail; and a first letter outside the
    basic plane (the Deseret small long i, U+10428) is left as it is, where
    the reference transform upper-cases it. *)
Lemma transform_fails_on_sharp_s_and_astral_letter :
  let sharp := [223; 120]%N in
  let deseret := [55297; 56360]%N in
  (1 < length sharp
   /\ @mockServerResponse exampleHost sharp = [83; 83; 120]%N
   /\ drop 1 (@mockServerResponse exampleHost sharp) <> drop 1 sharp)
  /\ (@transform_spec exampleHost deseret = [55297; 56320]%N
      /\ @mockServerResponse exampleHost deseret = deseret
      /\ @mockServerResponse exampleHost deseret
         <> @transform_spec exampleHost deseret).
Proof.
  vm_compute. repeat split; try lia; discriminate.
Qed.

Lemma mockServerResponse_by_code_units_witness :
  @mockServerResponse exampleHost (js "hello world") = js "Hello world"
  /\ @transform_spec exampleHost (js "hello world") = js "Hello world"
  /\ drop 1 (@mockServerResponse exampleHost (js "hello world"))
     = js "ello world".
Proof.
  destruct (@mockServerResponse_by_code_units exampleHost)
    as (_ & _ & _ & Href & Htail).
  split; [reflexivity|]. split.
  - rewrite <- (Href (js "hello world")); reflexivity.
  - apply Htail; [vm_compute; lia|reflexivity].
Defined.

Example transform_examples :
  @mockServerResponse exampleHost (js "") = js "Empty message received"
  /\ @mockServerResponse exampleHost (js "a") = js "A"
  /\ @mockServerResponse exampleHost (js "Z") = js "Z"
  /\ @mockServerResponse exampleHost (js "test") = js "Test".
Proof. repeat split; reflexivity. Qed.

(** ** Sending *)

Section SendFacts.
Context `{JsHost}.

Lemma sendMessage_blank sc w :
  truthy (trim (c_message sc)) = false -> sendMessage sc w = w.
Proof. intros Hb. unfold sendMessage. by rewrite Hb. Qed.

Lemma sendMessage_mock sc w :
  truthy (trim (c_message sc)) = true ->
  c_useMockServer sc = true ->
  sendMessage sc w =
    setMessage []
      (setTimeout (mkTimer 100 (MockReply (mockServerResponse (c_message sc))))
         (addMessage sent (c_message sc) w)).
Proof. intros Hb Hm. unfold sendMessage. by rewrite Hb, Hm. Qed.

Lemma sendMessage_live_closed sc w :
  truthy (trim (c_message sc)) = true ->
  c_useMockServer sc = false ->
  handleOpen w = false ->
  sendMessage sc w = setError (Some notConnectedText) w.
Proof.
  intros Hb Hm Hh. unfold sendMessage, handleOpen in *. rewrite Hb, Hm. simpl.
  destruct (wsRef w) as [ws|]; [|done].
  by destruct (readyStateOf ws w) as [[]|].
Qed.

Lemma sendMessage_live_open sc w ws :
  truthy (trim (c_message sc)) = true ->
  c_useMockServer sc = false ->
  wsRef w = Some ws ->
  readyStateOf ws w = Some OPEN ->
  sendMessage sc w =
    setMessage [] (addMessage sent (c_message sc) (ws_send ws (c_message sc) w)).
Proof.
  intros Hb Hm Hr Ho. unfold sendMessage. by rewrite Hb, Hm, Hr, Ho.
Qed.

(** C2 (amended): in live mode, a send of a non-blank text while the
    transport handle is absent or not open sets the "not connected" error
    and changes nothing else, so no event is appended; in simulated mode
    [sendMessage] performs no connection check and appends the sent
    event whatever the connection state. *)
Theorem send_rejected_only_by_closed_transport sc w :
  truthy (trim (c_message sc)) = true ->
  (c_useMockServer sc = false -> handleOpen w = false ->
     sendMessage sc w = setError (Some notConnectedText) w
     /\ error (sendMessage sc w) = Some notConnectedText
     /\ messages (sendMessage sc w) = messages w)
  /\ (c_useMockServer sc = true ->
     messages (sendMessage sc w)
       = messages w ++ [mkMessage sent (c_message sc)]
     /\ error (sendMessage sc w) = error w).
Proof.
  intros Hb. split.
  - intros Hm Hh. rewrite (sendMessage_live_closed _ _ Hb Hm Hh).
    by destruct w.
  - intros Hm. rewrite (sendMessage_mock _ _ Hb Hm). by destruct w.
Qed.

(** C4: in simulated mode a send of a non-blank text appends exactly the
    sent event with the original text, schedules one timer of 100 ms and
    sets no error; whenever that timer fires it appends exactly one
    received event, whose content is the transform of the text, and it is
    then gone; fired right away, the log has grown by the sent and the
    received event. *)
Theorem send_mock_round_trip sc w :
  truthy (trim (c_message sc)) = true ->
  c_useMockServer sc = true ->
  let reply := mkTimer 100 (MockReply (mockServerResponse (c_message sc))) in
  let w1 := sendMessage sc w in
  messages w1 = messages w ++ [mkMessage sent (c_message sc)]
  /\ timers w1 = <[nextTimerId w := reply]> (timers w)
  /\ error w1 = error w
  /\ (forall w2, timers w2 !! nextTimerId w = Some reply ->
      messages (step (Timer_fires (nextTimerId w)) w2)
      = messages w2 ++ [mkMessage received (mockServerResponse (c_message sc))]
      /\ timers (step (Timer_fires (nextTimerId w)) w2) !! nextTimerId w = None)
  /\ messages (step (Timer_fires (nextTimerId w)) w1)
     = messages w ++ [mkMessage sent (c_message sc);
                      mkMessage received (mockServerResponse (c_message sc))].
Proof.
  intros Hb Hm reply w1. subst w1.
  rewrite (sendMessage_mock _ _ Hb Hm).
  split; [by destruct w|]. split; [by destruct w|]. split; [by destruct w|].
  split.
  - intros w2 Hpending. world_cbn. rewrite Hpending. subst reply. world_cbn.
    destruct w2; world_cbn. split; [done|]. apply lookup_delete_eq.
  - destruct w; world_cbn. rewrite lookup_insert_eq. world_cbn.
    by rewrite <- app_assoc.
Qed.

(** C10: a send of a non-blank text that goes through (simulated mode, or
    live mode with the handle open) leaves the draft empty; a live send
    that finds the handle absent or not open leaves the draft and the log
    as they were and only sets the error. *)
Theorem send_clears_draft_iff_sent sc w :
  truthy (trim (c_message sc)) = true ->
  (c_useMockServer sc = true -> message (sendMessage sc w) = [])
  /\ (c_useMockServer sc = false -> handleOpen w = true ->
      message (sendMessage sc w) = []
      /\ messages (sendMessage sc w)
         = messages w ++ [mkMessage sent (c_message sc)])
  /\ (c_useMockServer sc = false -> handleOpen w = false ->
      message (sendMessage sc w) = message w
      /\ messages (sendMessage sc w) = messages w
      /\ sendMessage sc w = setError (Some notConnectedText) w).
Proof.
  intros Hb. split; [|split].
  - intros Hm. rewrite (sendMessage_mock _ _ Hb Hm). by destruct w.
  - intros Hm Ho. unfold handleOpen in Ho.
    destruct (wsRef w) as [ws|] eqn:Hr; [|done].
    apply bool_decide_eq_true in Ho.
    rewrite (sendMessage_live_open _ _ _ Hb Hm Hr Ho). by destruct w.
  - intros Hm Ho. rewrite (sendMessage_live_closed _ _ Hb Hm Ho).
    by destruct w.
Qed.

End SendFacts.

(** C2 (counterexample): in simulated mode, with the state not connected
    and a non-blank draft, [sendMessage] sets no error and appends the sent
    event. *)
Lemma send_while_disconnected_in_mock_mode :
  let w := mockDisconnected in
  let w' := @sendMessage exampleHost (scope_of w) w in
  isConnected w = false
  /\ useMockServer w = true
  /\ truthy (trim (message w)) = true
  /\ error w' = None
  /\ messages w' = messages w ++ [mkMessage sent (js "hi")]
  /\ ~ (error w' = Some notConnectedText /\ messages w' = messages w).
Proof.
  vm_compute. repeat split; try reflexivity. intros [Herr _]. discriminate Herr.
Qed.

Lemma send_rejected_only_by_closed_transport_witness :
  let w := setMessage (js "hi") initial in
  let v := mockDisconnected in
  (error (@sendMessage exampleHost (scope_of w) w) = Some notConnectedText
   /\ messages (@sendMessage exampleHost (scope_of w) w) = [])
  /\ messages (@sendMessage exampleHost (scope_of v) v)
     = messages v ++ [mkMessage sent (js "hi")].
Proof.
  intros w v. split.
  - destruct (@send_rejected_only_by_closed_transport exampleHost (scope_of w) w)
      as [Hlive _]; [reflexivity|].
    destruct Hlive as (_ & Herr & Hlog); [reflexivity|reflexivity|].
    split; [exact Herr|exact Hlog].
  - destruct (@send_rejected_only_by_closed_transport exampleHost (scope_of v) v)
      as [_ Hmock]; [reflexivity|].
    destruct Hmock as (Hlog & _); [reflexivity|]. exact Hlog.
Defined.

Lemma send_mock_round_trip_witness :
  let w := @run exampleHost
             [Toggle_mock true; Click_connect; Type_message (js "test")] initial in
  messages (@run exampleHost [Click_send; Timer_fires 1] w)
  = messages w ++ [mkMessage sent (js "test"); mkMessage received (js "Test")].
Proof.
  intros w.
  destruct (@send_mock_round_trip exampleHost (scope_of w) w)
    as (_ & _ & _ & _ & Hlog); [reflexivity|reflexivity|].
  exact Hlog.
Defined.

Lemma send_clears_draft_iff_sent_witness :
  let w := @run exampleHost
             [Toggle_mock true; Click_connect; Type_message (js "test")] initial in
  let v := @run exampleHost
             [Click_connect; Ws_open 0; Type_message (js "test")] initial in
  let u := setMessage (js "test") initial in
  (message w = js "test" /\ message (@sendMessage exampleHost (scope_of w) w) = [])
  /\ (message v = js "test" /\ message (@sendMessage exampleHost (scope_of v) v) = [])
  /\ (message (@sendMessage exampleHost (scope_of u) u) = js "test"
      /\ messages (@sendMessage exampleHost (scope_of u) u) = []).
Proof.
  intros w v u. split; [|split].
  - split; [reflexivity|].
    destruct (@send_clears_draft_iff_sent exampleHost (scope_of w) w)
      as (Hmock & _ & _); [reflexivity|].
    apply Hmock. reflexivity.
  - split; [reflexivity|].
    destruct (@send_clears_draft_iff_sent exampleHost (scope_of v) v)
      as (_ & Hopen & _); [reflexivity|].
    destruct Hopen as (Hdraft & _); [reflexivity|reflexivity|]. exact Hdraft.
  - destruct (@send_clears_draft_iff_sent exampleHost (scope_of u) u)
      as (_ & _ & Hclosed); [reflexivity|].
    destruct Hclosed as (Hdraft & Hlog & _); [reflexivity|reflexivity|].
    split; [exact Hdraft|exact Hlog].
Defined.

(** ** Retry policy *)

Section RetryFacts.
Context `{JsHost}.

Lemma onclose_below_max sc w :
  c_retryCount sc < maxRetries ->
  let w' := onclose sc false w in
  timers w' = <[nextTimerId w :=
                 mkTimer (2000 * (c_retryCount sc + 1)) (RetryConnect sc)]>
              (timers w)
  /\ nextTimerId w' = S (nextTimerId w)
  /\ retryTimeoutRef w' = Some (nextTimerId w)
  /\ retryCount w' = c_retryCount sc + 1
  /\ error w' = Some (retryingText (c_retryCount sc + 1)).
Proof.
  intros Hlt. unfold onclose.
  apply Nat.ltb_lt in Hlt. rewrite Hlt. by destruct w.
Qed.

Lemma onclose_at_max sc w :
  maxRetries <= c_retryCount sc ->
  let w' := onclose sc false w in
  timers w' = timers w
  /\ retryTimeoutRef w' = retryTimeoutRef w
  /\ retryCount w' = retryCount w
  /\ error w' = Some terminalText.
Proof.
  intros Hge. unfold onclose.
  apply Nat.ltb_ge in Hge. rewrite Hge. by destruct w.
Qed.

Lemma onerror_schedules_nothing sc w :
  timers (onerror sc w) = timers w
  /\ retryTimeoutRef (onerror sc w) = retryTimeoutRef w
  /\ retryCount (onerror sc w) = retryCount w.
Proof. by destruct w. Qed.

Lemma connectTimeout_schedules_nothing ws w :
  timers (connectTimeout ws w) = timers w
  /\ retryTimeoutRef (connectTimeout ws w) = retryTimeoutRef w
  /\ retryCount (connectTimeout ws w) = retryCount w.
Proof. unfold connectTimeout. unfold_world w. Qed.

(** What each handler does about retries: the close handler, on an unclean
    close, schedules one (and announces it) when the [retryCount] it reads
    is below [maxRetries], and otherwise sets the terminal error; the error
    handler and the connection timeout schedule nothing themselves. *)
Lemma retry_scheduling_by_handler sc w :
  (c_retryCount sc < maxRetries ->
     timers (onclose sc false w)
       = <[nextTimerId w :=
            mkTimer (2000 * (c_retryCount sc + 1)) (RetryConnect sc)]>
         (timers w)
     /\ retryTimeoutRef (onclose sc false w) = Some (nextTimerId w)
     /\ retryCount (onclose sc false w) = c_retryCount sc + 1
     /\ error (onclose sc false w)
        = Some (retryingText (c_retryCount sc + 1)))
  /\ (maxRetries <= c_retryCount sc ->
     timers (onclose sc false w) = timers w
     /\ retryTimeoutRef (onclose sc false w) = retryTimeoutRef w
     /\ error (onclose sc false w) = Some terminalText)
  /\ (timers (onerror sc w) = timers w
      /\ retryTimeoutRef (onerror sc w) = retryTimeoutRef w)
  /\ (forall ws,
      timers (connectTimeout ws w) = timers w
      /\ retryTimeoutRef (connectTimeout ws w) = retryTimeoutRef w).
Proof.
  split; [|split; [|split]].
  - intros Hlt. destruct (onclose_below_max sc w Hlt) as (?&?&?&?&?). auto.
  - intros Hge. destruct (onclose_at_max sc w Hge) as (?&?&?&?). auto.
  - destruct (onerror_schedules_nothing sc w) as (?&?&?). auto.
  - intros ws. destruct (connectTimeout_schedules_nothing ws w) as (?&?&?).
    auto.
Qed.

End RetryFacts.

Section RetryCount.
Context `{JsHost}.

Lemma connectToServer_retryCount sc w :
  retryCount (connectToServer sc w) = retryCount w
  \/ (retryCount (connectToServer sc w) = 0
      /\ isConnected (connectToServer sc w) = true).
Proof. unfold connectToServer. unfold_world w. Qed.

Lemma connectToServer_connected sc w :
  isConnected (connectToServer sc w) = true ->
  isConnected w = true \/ retryCount (connectToServer sc w) = 0.
Proof. unfold connectToServer. unfold_world w. Qed.

Lemma closeConnection_retryCount sc w :
  isConnected (closeConnection sc w) = false
  /\ (retryCount (closeConnection sc w) = retryCount w
      \/ retryCount (closeConnection sc w) = 0).
Proof. unfold closeConnection. unfold_world w. Qed.

Lemma sendMessage_retryCount sc w :
  isConnected (sendMessage sc w) = isConnected w
  /\ retryCount (sendMessage sc w) = retryCount w.
Proof. unfold sendMessage. unfold_world w. Qed.

Lemma toggleMockServer_retryCount sc enabled w :
  retryCount (toggleMockServer sc enabled w) = 0
  /\ (isConnected (toggleMockServer sc enabled w) = true ->
      isConnected w = true).
Proof.
  unfold toggleMockServer. destruct (c_isConnected sc).
  - destruct (closeConnection_retryCount sc (setUseMockServer enabled w))
      as [Hc _].
    destruct (closeConnection sc (setUseMockServer enabled w)).
    simpl in *. split; [done|congruence].
  - by destruct w.
Qed.

Lemma onclose_retryCount sc wasClean w :
  isConnected (onclose sc wasClean w) = false
  /\ (retryCount (onclose sc wasClean w) = retryCount w
      \/ (wasClean = false /\ c_retryCount sc < maxRetries
          /\ retryCount (onclose sc wasClean w) = c_retryCount sc + 1)).
Proof.
  unfold onclose. destruct wasClean; [destruct w; simpl; auto|].
  destruct (c_retryCount sc <? maxRetries) eqn:Hlt;
    [|destruct w; simpl; auto].
  apply Nat.ltb_lt in Hlt. destruct w; simpl. auto.
Qed.

Lemma withReadyState_frame ws r w :
  retryCount (withReadyState ws r w) = retryCount w
  /\ isConnected (withReadyState ws r w) = isConnected w.
Proof. by destruct w. Qed.

Lemma runTimer_retryCount b w :
  retryCount (runTimer b w) = retryCount w
  \/ (retryCount (runTimer b w) = 0 /\ isConnected (runTimer b w) = true).
Proof.
  destruct b as [sc|ws|response]; simpl.
  - apply connectToServer_retryCount.
  - left. apply connectTimeout_schedules_nothing.
  - left. by destruct w.
Qed.

Lemma runTimer_connected b w :
  isConnected (runTimer b w) = true ->
  isConnected w = true \/ retryCount (runTimer b w) = 0.
Proof.
  destruct b as [sc|ws|response]; simpl.
  - apply connectToServer_connected.
  - unfold connectTimeout. unfold_world w.
  - destruct w; auto.
Qed.

(** How one event may move [retryCount]: it stays, or it is reset to 0,
    or the event is an unclean close whose handler read a count below
    [maxRetries] and stored that count plus one. *)
Lemma step_retryCount ev w :
  retryCount (step ev w) = retryCount w
  \/ retryCount (step ev w) = 0
  \/ exists ws s,
       ev = Ws_close ws false /\ sockets w !! ws = Some s
       /\ c_retryCount (handlers s) < maxRetries
       /\ retryCount (step ev w) = c_retryCount (handlers s) + 1.
Proof.
  destruct ev; simpl.
  - destruct (connectToServer_retryCount (scope_of w) w) as [?|[? _]]; auto.
  - destruct (closeConnection_retryCount (scope_of w) w) as [_ [?|?]]; auto.
  - left. apply sendMessage_retryCount.
  - left. by destruct w.
  - right. left. apply toggleMockServer_retryCount.
  - left. by destruct w.
  - left. by destruct w.
  - destruct (readyStateOf ws w) as [[]|]; auto. right. left. by destruct w.
  - destruct (readyStateOf ws w) as [[]|]; auto. left. by destruct w.
  - destruct (sockets w !! ws); auto. left. apply onerror_schedules_nothing.
  - destruct (sockets w !! ws) as [s|] eqn:Hs; auto.
    destruct (readyState s); auto;
      (destruct (onclose_retryCount (handlers s) wasClean
                   (withReadyState ws CLOSED w)) as [_ [Heq|(-> & Hlt & Heq)]];
       [left; rewrite Heq; apply withReadyState_frame
       |right; right; exists ws, s; auto]).
  - destruct (timers w !! id) as [t|]; auto.
    destruct (runTimer_retryCount (body t) (clearTimeout id w)) as [Heq|[? _]];
      [left; rewrite Heq; by destruct w|auto].
Qed.

Lemma step_into_connected ev w :
  isConnected w = false -> isConnected (step ev w) = true ->
  retryCount (step ev w) = 0.
Proof.
  intros Hoff Hon. destruct ev; simpl in *.
  - destruct (connectToServer_connected _ _ Hon); [congruence|done].
  - destruct (closeConnection_retryCount (scope_of w) w); congruence.
  - destruct (sendMessage_retryCount (scope_of w) w); congruence.
  - destruct w; simpl in *; congruence.
  - apply toggleMockServer_retryCount.
  - destruct w; simpl in *; congruence.
  - destruct w; simpl in *; congruence.
  - destruct (readyStateOf ws w) as [[]|]; try congruence. by destruct w.
  - destruct (readyStateOf ws w) as [[]|]; try congruence.
    destruct w; simpl in *; congruence.
  - destruct (sockets w !! ws); try congruence.
    destruct w; simpl in *; congruence.
  - destruct (sockets w !! ws) as [s|]; try congruence.
    destruct (readyState s); try congruence;
      destruct (onclose_retryCount (handlers s) wasClean
                  (withReadyState ws CLOSED w)); congruence.
  - destruct (timers w !! id) as [t|]; try congruence.
    destruct (runTimer_connected _ _ Hon) as [Hc|?]; [|done].
    destruct w; simpl in *; congruence.
Qed.

(** C7: every event that takes the component into the connected state
    leaves [retryCount] at 0, and both the simulated connect and the
    transport's open signal do so; the only event that can raise
    [retryCount] is an unclean close whose handler reads a count strictly
    below [maxRetries], and it stores that count plus one. *)
Theorem retryCount_reset_and_increment :
  (forall ev w, isConnected w = false -> isConnected (step ev w) = true ->
     retryCount (step ev w) = 0)
  /\ (forall sc w, c_isConnecting sc = false -> c_useMockServer sc = true ->
     isConnected (connectToServer sc w) = true
     /\ retryCount (connectToServer sc w) = 0)
  /\ (forall w, isConnected (onopen w) = true /\ retryCount (onopen w) = 0)
  /\ (forall ev w, retryCount w < retryCount (step ev w) ->
     exists ws s,
       ev = Ws_close ws false /\ sockets w !! ws = Some s
       /\ c_retryCount (handlers s) < maxRetries
       /\ retryCount (step ev w) = c_retryCount (handlers s) + 1).
Proof.
  split; [exact step_into_connected|]. split; [|split].
  - intros sc w Hc Hm. unfold connectToServer. rewrite Hc, Hm.
    unfold_world w.
  - intros w. by destruct w.
  - intros ev w Hlt.
    destruct (step_retryCount ev w) as [Heq|[Heq|Hex]]; [lia|lia|exact Hex].
Qed.

End RetryCount.

Lemma retryCount_reset_and_increment_witness :
  let w := @run exampleHost [Click_connect] initial in
  retryCount (@step exampleHost (Ws_open 0) w) = 0
  /\ retryCount (@connectToServer exampleHost
                   (scope_of (setUseMockServer true initial)) initial) = 0
  /\ retryCount (@step exampleHost (Ws_close 0 false) w) = 1.
Proof.
  intros w.
  destruct (@retryCount_reset_and_increment exampleHost)
    as (Hinto & Hmock & _ & Hup).
  split; [apply Hinto; reflexivity|].
  split; [apply Hmock; reflexivity|].
  destruct (Hup (Ws_close 0 false) w) as (ws & s & Hev & Hs & _ & Hrc).
  - vm_compute. lia.
  - rewrite Hrc. injection Hev as <-.
    vm_compute in Hs. injection Hs as <-. reflexivity.
Defined.

(** ** The bound on retryCount *)

Section Bound.
Context `{JsHost}.

Lemma Forall_alter_handlers (f : WebSocket -> WebSocket) i (l : list WebSocket) :
  (forall s, handlers (f s) = handlers s) ->
  Forall (fun s => c_retryCount (handlers s) <= maxRetries) l ->
  Forall (fun s => c_retryCount (handlers s) <= maxRetries) (alter f i l).
Proof.
  intros Hf Hl. apply Forall_alter; [done|]. intros s Hs. rewrite Hf.
  eapply Forall_lookup_1 in Hl; eauto. 
Qed.

Lemma closeSocket_handlers args s : handlers (closeSocket args s) = handlers s.
Proof. unfold closeSocket. by destruct (readyState s). Qed.

Ltac bounded_tac :=
  repeat match goal with
  | |- _ /\ _ => split
  | |- Forall _ (alter _ _ _) => apply Forall_alter_handlers; [auto using closeSocket_handlers|]
  | |- Forall _ (_ ++ _) => apply Forall_app; split
  | |- Forall _ [_] => apply Forall_singleton
  | |- map_Forall _ (<[_:=_]> _) => apply map_Forall_insert_2
  | |- map_Forall _ (delete _ _) => apply map_Forall_delete
  end; simpl; try done; try lia.

Lemma connectToServer_bounded sc w :
  c_retryCount sc <= maxRetries -> bounded w -> bounded (connectToServer sc w).
Proof.
  intros Hsc (Hrc & Hs & Ht). unfold connectToServer, bounded.
  destruct w as [? ? ? ? ? ? ? ? ? wsr rtr ? ? ?]; world_cbn in *.
  destruct (c_isConnecting sc), rtr, wsr, (c_useMockServer sc),
      (wsConstructorError (c_serverUrl sc)); world_cbn; bounded_tac.
Qed.

Lemma closeConnection_bounded sc w : bounded w -> bounded (closeConnection sc w).
Proof.
  intros (Hrc & Hs & Ht). unfold closeConnection, bounded.
  destruct w as [? ? ? ? ? ? ? ? ? wsr rtr ? ? ?]; world_cbn in *.
  destruct rtr, wsr, (c_useMockServer sc); world_cbn; bounded_tac.
Qed.

Lemma sendMessage_bounded sc w : bounded w -> bounded (sendMessage sc w).
Proof.
  intros (Hrc & Hs & Ht). unfold sendMessage, bounded.
  destruct (negb (truthy (trim (c_message sc)))); [done|].
  destruct w as [? ? ? ? ? ? ? ? ? wsr rtr socks ? ?]; world_cbn in *.
  destruct (c_useMockServer sc); world_cbn; [bounded_tac|].
  destruct wsr as [ws|]; world_cbn; [|bounded_tac].
  unfold readyStateOf; world_cbn.
  destruct (socks !! ws) as [[? [] ? ? ?]|]; world_cbn; bounded_tac.
Qed.

Lemma toggleMockServer_bounded sc enabled w :
  bounded w -> bounded (toggleMockServer sc enabled w).
Proof.
  intros Hb. unfold toggleMockServer.
  assert (Hb' : bounded (setUseMockServer enabled w))
    by (destruct w; exact Hb).
  destruct (c_isConnected sc).
  - apply (closeConnection_bounded sc) in Hb'.
    destruct (closeConnection sc (setUseMockServer enabled w)).
    destruct Hb' as (? & ? & ?). unfold bounded. world_cbn in *. bounded_tac.
  - destruct w. destruct Hb as (? & ? & ?). unfold bounded. world_cbn in *.
    bounded_tac.
Qed.

Lemma onclose_bounded sc wasClean w :
  c_retryCount sc <= maxRetries -> bounded w -> bounded (onclose sc wasClean w).
Proof.
  intros Hsc (Hrc & Hs & Ht). unfold onclose, bounded.
  destruct wasClean; [destruct w; world_cbn in *; bounded_tac|].
  destruct (c_retryCount sc <? maxRetries) eqn:Hlt;
    [apply Nat.ltb_lt in Hlt|]; destruct w; world_cbn in *; bounded_tac.
Qed.

Lemma runTimer_bounded t w :
  boundedTimer t -> bounded w -> bounded (runTimer (body t) w).
Proof.
  unfold boundedTimer. destruct (body t) as [sc|ws|response]; intros Hb Hw.
  - by apply connectToServer_bounded.
  - destruct Hw as (Hrc & Hs & Ht). unfold bounded. world_cbn.
    unfold connectTimeout, readyStateOf.
    destruct w as [? ? ? ? ? ? ? ? ? ? ? socks ? ?]; world_cbn in *.
    destruct (socks !! ws) as [[? [] ? ? ?]|]; world_cbn; bounded_tac.
  - destruct w. exact Hw.
Qed.

Lemma step_bounded ev w : bounded w -> bounded (step ev w).
Proof.
  intros Hb. destruct ev; world_cbn.
  - apply connectToServer_bounded; [|done]. by destruct Hb.
  - by apply closeConnection_bounded.
  - by apply sendMessage_bounded.
  - destruct w. destruct Hb as (? & ? & ?). unfold bounded. world_cbn in *. bounded_tac.
  - by apply toggleMockServer_bounded.
  - by destruct w.
  - by destruct w.
  - destruct Hb as (Hrc & Hs & Ht). unfold readyStateOf.
    destruct w as [? ? ? ? ? ? ? ? ? ? ? socks ? ?]; world_cbn in *.
    destruct (socks !! ws) as [[? [] ? ? ?]|]; world_cbn; unfold bounded; world_cbn;
      bounded_tac.
  - destruct Hb as (Hrc & Hs & Ht). unfold readyStateOf.
    destruct w as [? ? ? ? ? ? ? ? ? ? ? socks ? ?]; world_cbn in *.
    destruct (socks !! ws) as [[? [] ? ? ?]|]; world_cbn; unfold bounded; world_cbn;
      bounded_tac.
  - destruct (sockets w !! ws); [|done].
    destruct w. destruct Hb as (? & ? & ?). unfold bounded. world_cbn in *. bounded_tac.
  - destruct (sockets w !! ws) as [s|] eqn:Hsock; [|done].
    assert (Hsc : c_retryCount (handlers s) <= maxRetries).
    { destruct Hb as (_ & Hs & _). eapply Forall_lookup_1 in Hs; eauto. }
    assert (Hb' : bounded (withReadyState ws CLOSED w)).
    { destruct w. destruct Hb as (? & ? & ?). unfold bounded. world_cbn in *. bounded_tac. }
    destruct (readyState s); try done; by apply onclose_bounded.
  - destruct (timers w !! id) as [t|] eqn:Htimer; [|done].
    apply runTimer_bounded.
    + destruct Hb as (_ & _ & Ht). by apply (Ht id).
    + destruct w. destruct Hb as (? & ? & ?). unfold bounded. world_cbn in *. bounded_tac.
Qed.

Lemma run_bounded evs w : bounded w -> bounded (run evs w).
Proof.
  revert w. induction evs as [|ev evs IH]; intros w Hb; [done|].
  apply IH. by apply step_bounded.
Qed.

Lemma initial_bounded : bounded initial.
Proof.
  unfold bounded; world_cbn. repeat split; [lia|constructor|apply map_Forall_empty].
Qed.

(** Whatever happens, [retryCount] stays within [maxRetries]. *)
Lemma retryCount_never_exceeds_maxRetries evs :
  retryCount (run evs initial) <= maxRetries.
Proof. apply (run_bounded evs initial initial_bounded). Qed.
End Bound.

(** ** A server that never answers *)

Section Unattended.
Context `{JsHost}.
Hypothesis url_accepted : wsConstructorError (serverUrl initial) = None.

Lemma run_app evs1 evs2 w : run (evs1 ++ evs2) w = run evs2 (run evs1 w).
Proof. apply foldl_app. Qed.

Lemma first_click_attempting : attempting 0 (run [Click_connect] initial).
Proof.
  unfold attempting. world_cbn in *. unfold connectToServer. world_cbn.
  rewrite url_accepted. by world_cbn.
Qed.

(** The world right after the unclean close of attempt [n]. *)
Lemma failed_attempt_schedules_same_retry n w :
  attempting n w ->
  let w' := run [Ws_error n; Ws_close n false] w in
  timers w' !! (2 * n + 2)
    = Some (mkTimer 2000 (RetryConnect (scope_of initial)))
  /\ retryCount w' = 1
  /\ error w' = Some (retryingText 1)
  /\ retryTimeoutRef w' = Some (2 * n + 2)
  /\ wsRef w' = None
  /\ length (sockets w') = S n
  /\ nextTimerId w' = 2 * n + 3.
Proof.
  intros (Href & Hsock & Hlen & Hnext).
  destruct w; world_cbn in *; subst.
  rewrite Hsock. world_cbn. rewrite Hsock. world_cbn.
  rewrite lookup_insert_eq, !length_alter.
  repeat split; done.
Qed.

Lemma failed_attempt_starts_next n w :
  attempting n w -> attempting (S n) (run (failedAttempt n) w).
Proof.
  intros Hatt. change (failedAttempt n)
    with ([Ws_error n; Ws_close n false] ++ [Timer_fires (2 * n + 2)]).
  rewrite run_app.
  destruct (failed_attempt_schedules_same_retry n w Hatt)
    as (Htimer & _ & _ & Hretry & Href & Hlen & Hnext).
  destruct (run [Ws_error n; Ws_close n false] w). world_cbn in *. subst.
  rewrite Htimer. world_cbn. unfold connectToServer. world_cbn.
  rewrite url_accepted. unfold attempting. world_cbn.
  rewrite length_app, Hlen. repeat split; try done; try (simpl; lia).
  rewrite lookup_app_r by lia. by rewrite Hlen, Nat.sub_diag.
Qed.

Lemma unattended_attempting n : attempting n (run (unattended n) initial).
Proof.
  induction n as [|n IH].
  - exact first_click_attempting.
  - unfold unattended in *. simpl failedAttempts.
    rewrite app_comm_cons, run_app. by apply failed_attempt_starts_next.
Qed.

(** However many attempts have failed, the next unclean close schedules
    one more automatic retry, 2000 ms away, announced as retry 1 of 3:
    the close handler and the retry timer both belong to the scope of the
    first click, whose [retryCount] is 0. *)
Lemma automatic_retry_never_stops n :
  let w := run (unattended n ++ [Ws_error n; Ws_close n false]) initial in
  timers w !! (2 * n + 2)
    = Some (mkTimer 2000 (RetryConnect (scope_of initial)))
  /\ retryCount w = 1
  /\ error w = Some (retryingText 1).
Proof.
  rewrite run_app.
  destruct (failed_attempt_schedules_same_retry n _ (unattended_attempting n))
    as (?&?&?&_). auto.
Qed.

End Unattended.

(** C5 (the code at the failing input): with the server unreachable and
    nobody touching the page, the first automatic retry is scheduled 2000 ms
    away and so is every later one: after [k] failed attempts have been
    retried, the retry scheduled by the next failure (automatic retry
    [k + 1]) again waits 2000 ms, not [2000 * (k + 1)]. *)
Theorem every_automatic_retry_waits_2000 `{JsHost} (k : nat) :
  wsConstructorError (serverUrl initial) = None ->
  let w := run (unattended k ++ [Ws_error k; Ws_close k false]) initial in
  delay <$> timers w !! (2 * k + 2) = Some 2000.
Proof.
  intros Hurl w. subst w.
  destruct (automatic_retry_never_stops Hurl k) as (Htimer & _).
  by rewrite Htimer.
Qed.

Lemma every_automatic_retry_waits_2000_witness :
  let w := @run exampleHost (unattended 1 ++ [Ws_error 1; Ws_close 1 false]) initial in
  delay <$> timers w !! 4 = Some 2000 /\ 2000 <> 2000 * 2.
Proof.
  intros w. split; [|lia].
  apply (@every_automatic_retry_waits_2000 exampleHost 1). reflexivity.
Defined.

(** C6 (the code at the failing input): after three unclean closes in a row,
    [maxRetries] of them, a fourth connection attempt is scheduled 2000 ms
    away, the error still announces retry 1 of 3 and is not the terminal
    one, and [retryCount] is 1. *)
Theorem retry_still_scheduled_after_maxRetries_closes :
  let w := @run exampleHost (unattended 2 ++ [Ws_error 2; Ws_close 2 false]) initial in
  @offeredAll exampleHost (unattended 2 ++ [Ws_error 2; Ws_close 2 false])
    initial = true
  /\ length (filter isUncleanClose
               (unattended 2 ++ [Ws_error 2; Ws_close 2 false])) = maxRetries
  /\ timers w !! 6 = Some (mkTimer 2000 (RetryConnect (scope_of initial)))
  /\ retryTimeoutRef w = Some 6
  /\ error w = Some (retryingText 1)
  /\ error w <> Some terminalText
  /\ retryCount w = 1.
Proof. vm_compute. repeat split; try reflexivity. discriminate. Qed.

(** ** The three error kinds *)

Section ErrorKinds.
Context `{JsHost}.
Hypothesis url_accepted : wsConstructorError (serverUrl initial) = None.

Lemma first_click_attemptingTimed :
  attemptingTimed 0 (run [Click_connect] initial).
Proof.
  unfold attemptingTimed, attempting. world_cbn in *.
  unfold connectToServer. world_cbn. rewrite url_accepted. by world_cbn.
Qed.

Lemma failure_schedules_same_retry kind n w :
  attemptingTimed n w -> retryingAgain n (run (failureBy kind n) w).
Proof.
  intros ((Href & Hsock & Hlen & Hnext) & Htimeout). unfold retryingAgain.
  destruct w as [a b c d e f g h k wsr rtr socks tm nx];
    world_cbn in *; subst.
  destruct kind; cbn [failureBy]; world_cbn.
  - rewrite Htimeout. world_cbn. unfold connectTimeout, readyStateOf.
    world_cbn. rewrite Hsock. world_cbn.
    rewrite list_lookup_alter_eq, Hsock. world_cbn.
    rewrite lookup_insert_eq, !length_alter. by repeat split.
  - rewrite Hsock. world_cbn. rewrite Hsock. world_cbn.
    rewrite lookup_insert_eq, !length_alter. by repeat split.
  - rewrite Hsock. world_cbn.
    rewrite lookup_insert_eq, !length_alter. by repeat split.
Qed.

Lemma retry_starts_next_attempt n w :
  retryingAgain n w ->
  attemptingTimed (S n) (step (Timer_fires (2 * n + 2)) w).
Proof.
  intros (Htimer & _ & _ & Hretry & Href & Hlen & Hnext).
  destruct w as [a b c d e f g h k wsr rtr socks tm nx];
    world_cbn in *; subst.
  rewrite Htimer. world_cbn. unfold connectToServer. world_cbn.
  rewrite url_accepted. unfold attemptingTimed, attempting. world_cbn.
  rewrite length_app, Hlen.
  replace (2 * S n + 1) with (2 * n + 3) by lia.
  rewrite lookup_insert_eq.
  repeat split; try done; try (simpl; lia).
  rewrite lookup_app_r by lia. by rewrite Hlen, Nat.sub_diag.
Qed.

Lemma failures_keep_attempting kinds k w :
  attemptingTimed k w ->
  attemptingTimed (k + length kinds) (run (failuresFrom k kinds) w).
Proof.
  revert k w. induction kinds as [|kind kinds IH]; intros k w Hw.
  - simpl. by rewrite Nat.add_0_r.
  - simpl failuresFrom. rewrite run_app.
    change (run (Timer_fires (2 * k + 2) :: failuresFrom (S k) kinds)
              (run (failureBy kind k) w))
      with (run (failuresFrom (S k) kinds)
              (step (Timer_fires (2 * k + 2)) (run (failureBy kind k) w))).
    replace (k + length (kind :: kinds)) with (S k + length kinds)
      by (simpl; lia).
    apply IH, retry_starts_next_attempt. by apply failure_schedules_same_retry.
Qed.

End ErrorKinds.

(** C3 (the code at the failing input): with the server unreachable and
    nobody touching the page, whatever the kinds of the errors (connection
    timeout, transport error, unclean close) and however many attempts have
    failed, the next failure schedules one more retry, 2000 ms away and
    announced as retry 1 of 3; the terminal error is never set. *)
Theorem every_error_kind_retries_without_end `{JsHost}
    (kinds : list ErrorKind) (kind : ErrorKind) :
  wsConstructorError (serverUrl initial) = None ->
  let n := length kinds in
  let w := run (Click_connect :: failuresFrom 0 kinds ++ failureBy kind n)
             initial in
  timers w !! (2 * n + 2)
    = Some (mkTimer 2000 (RetryConnect (scope_of initial)))
  /\ retryTimeoutRef w = Some (2 * n + 2)
  /\ retryCount w = 1
  /\ error w = Some (retryingText 1)
  /\ error w <> Some terminalText.
Proof.
  intros Hurl n w. subst w n.
  change (Click_connect
          :: failuresFrom 0 kinds ++ failureBy kind (length kinds))
    with ([Click_connect]
          ++ failuresFrom 0 kinds ++ failureBy kind (length kinds)).
  rewrite !run_app.
  pose proof (failures_keep_attempting Hurl kinds 0 _
                (first_click_attemptingTimed Hurl)) as Hatt.
  change (0 + length kinds) with (length kinds) in Hatt.
  apply (failure_schedules_same_retry kind) in Hatt.
  destruct Hatt as (Htimer & Hcount & Herr & Href & _).
  repeat split; try done. rewrite Herr. vm_compute. discriminate.
Qed.

Lemma every_error_kind_retries_without_end_witness :
  let evs := [Click_connect; Ws_error 0; Ws_close 0 false; Timer_fires 2;
              Timer_fires 3; Ws_close 1 false; Timer_fires 4;
              Ws_close 2 false] in
  @offeredAll exampleHost evs initial = true
  /\ length (filter isUncleanClose evs) = maxRetries
  /\ timers (@run exampleHost evs initial) !! 6
     = Some (mkTimer 2000 (RetryConnect (scope_of initial)))
  /\ error (@run exampleHost evs initial) = Some (retryingText 1)
  /\ error (@run exampleHost evs initial) <> Some terminalText.
Proof.
  intros evs.
  destruct (@every_error_kind_retries_without_end exampleHost
              [TransportError; ConnectTimeoutError] UncleanClose)
    as (Htimer & _ & _ & Herr & Hnot); [reflexivity|].
  split; [reflexivity|]. split; [reflexivity|].
  split; [exact Htimer|]. split; [exact Herr|exact Hnot].
Defined.

(** ** Disconnecting and cancelling *)

Section DisconnectFacts.
Context `{JsHost}.

Lemma cancelRetry_spec w :
  retryTimeoutRef (cancelRetry w) = None
  /\ timers (cancelRetry w)
     = match retryTimeoutRef w with
       | Some id => delete id (timers w)
       | None => timers w
       end
  /\ sockets (cancelRetry w) = sockets w
  /\ wsRef (cancelRetry w) = wsRef w
  /\ retryCount (cancelRetry w) = retryCount w.
Proof. unfold cancelRetry. unfold_world w. Qed.

Lemma closeConnection_mock sc w :
  c_useMockServer sc = true ->
  closeConnection sc w
  = addMessage system (redCircle ++ js " Disconnected from Mock Server")
      (setError None
        (setConnectionStatus (js "Disconnected")
          (setIsConnected false (cancelRetry w)))).
Proof.
  intros Hm. unfold closeConnection, cancelRetry, userClosed. by rewrite Hm.
Qed.

Lemma closeConnection_live sc w :
  c_useMockServer sc = false ->
  closeConnection sc w
  = setRetryCount 0
      (setError None
        (setConnectionStatus (js "Disconnected")
          (setIsConnected false
            (match wsRef (cancelRetry w) with
             | Some id =>
                 assignWsRef None (ws_close id userClosed (cancelRetry w))
             | None => cancelRetry w
             end)))).
Proof.
  intros Hm. unfold closeConnection, cancelRetry, userClosed. by rewrite Hm.
Qed.

Lemma closeConnection_timers sc w :
  retryTimeoutRef (closeConnection sc w) = None
  /\ timers (closeConnection sc w) = timers (cancelRetry w).
Proof.
  destruct (cancelRetry_spec w) as (Href & _).
  destruct (c_useMockServer sc) eqn:Hm.
  - rewrite (closeConnection_mock _ _ Hm). by destruct (cancelRetry w).
  - rewrite (closeConnection_live _ _ Hm).
    destruct (cancelRetry w) as [? ? ? ? ? ? ? ? ? wsr ? ? ? ?]; world_cbn in *.
    by destruct wsr.
Qed.


Lemma closeSocket_not_connecting args s :
  readyState (closeSocket args s) <> CONNECTING.
Proof.
  unfold closeSocket. destruct (readyState s) eqn:Hr; simpl; congruence.
Qed.


End DisconnectFacts.



Section CancellationFacts.
Context `{JsHost}.

(** What a connect that passes its guard does to timers and sockets: the
    referenced retry timer goes, the handle in the ref is closed, and at
    most one thing is added of each kind (a socket, its timeout). *)
Lemma connectToServer_timers sc w :
  c_isConnecting sc = false ->
  retryTimeoutRef (connectToServer sc w) = None
  /\ (timers (connectToServer sc w) = timers (cancelRetry w)
      \/ exists t, timers (connectToServer sc w)
                   = <[nextTimerId w := t]> (timers (cancelRetry w))).
Proof.
  intros Hc. unfold connectToServer, cancelRetry. rewrite Hc.
  destruct w as [? ? ? ? ? ? ? ? ? wsr rtr ? ? ?]; world_cbn.
  destruct rtr, wsr, (c_useMockServer sc),
    (wsConstructorError (c_serverUrl sc)); world_cbn; eauto.
Qed.

Lemma connectToServer_closes_handle sc w ws s :
  c_isConnecting sc = false ->
  wsRef w = Some ws -> sockets w !! ws = Some s ->
  readyState <$> sockets (connectToServer sc w) !! ws
  = Some (readyState (closeSocket None s)).
Proof.
  intros Hc Href Hs. unfold connectToServer. rewrite Hc.
  destruct w as [? ? ? ? ? ? ? ? ? wsr rtr ? ? ?]; world_cbn in *. subst.
  destruct rtr, (c_useMockServer sc),
    (wsConstructorError (c_serverUrl sc)); world_cbn;
    rewrite ?lookup_app_l
      by (rewrite length_alter; by apply lookup_lt_Some in Hs);
    by rewrite list_lookup_alter_eq, Hs.
Qed.

Lemma closeConnection_closes_handle sc w ws s :
  c_useMockServer sc = false ->
  wsRef w = Some ws -> sockets w !! ws = Some s ->
  readyState <$> sockets (closeConnection sc w) !! ws
  = Some (readyState (closeSocket userClosed s)).
Proof.
  intros Hm Href Hs. rewrite (closeConnection_live _ _ Hm).
  destruct (cancelRetry_spec w) as (_ & _ & Hsockets & Hws & _).
  rewrite Hws, Href. destruct (cancelRetry w); world_cbn in *. subst.
  by rewrite list_lookup_alter_eq, Hs.
Qed.

Lemma stale_connectTimeout_is_inert id d ws w :
  timers w !! id = Some (mkTimer d (ConnectTimeout ws)) ->
  readyStateOf ws w <> Some CONNECTING ->
  step (Timer_fires id) w = clearTimeout id w.
Proof.
  intros Ht Hr. world_cbn. rewrite Ht. world_cbn. unfold connectTimeout.
  replace (readyStateOf ws (clearTimeout id w)) with (readyStateOf ws w)
    by (by destruct w).
  by destruct (readyStateOf ws w) as [[]|].
Qed.

Lemma tidy_ref_none tm next ref : tidy tm next ref -> tidy tm next None.
Proof. intros (Hlt & _). by split. Qed.

Lemma tidy_set_keep tm next ref t :
  tidy tm next ref -> tidy (<[next:=t]> tm) (S next) ref.
Proof.
  intros (Hlt & Href). split.
  - intros id t' [[-> _]|[_ Hl]]%lookup_insert_Some; [lia|].
    apply Hlt in Hl. lia.
  - intros id Hr. destruct (Href id Hr) as (Hid & Hret). split; [lia|].
    intros t'. rewrite lookup_insert_ne by lia. apply Hret.
Qed.

Lemma tidy_set_ref tm next ref t :
  isRetry t = true -> tidy tm next ref ->
  tidy (<[next:=t]> tm) (S next) (Some next).
Proof.
  intros Ht (Hlt & Href). split.
  - intros id t' [[-> _]|[_ Hl]]%lookup_insert_Some; [lia|].
    apply Hlt in Hl. lia.
  - intros id [= <-]. split; [lia|]. intros t'.
    rewrite lookup_insert_eq. by intros [= <-].
Qed.

Lemma tidy_delete tm next ref id :
  tidy tm next ref -> tidy (delete id tm) next ref.
Proof.
  intros (Hlt & Href). split.
  - intros id' t' [_ Hl]%lookup_delete_Some. by apply Hlt in Hl.
  - intros id' Hr. destruct (Href id' Hr) as (Hid & Hret). split; [done|].
    intros t' [_ Hl]%lookup_delete_Some. by apply Hret.
Qed.

Ltac tidy_up :=
  repeat first
    [ assumption
    | eapply tidy_set_ref; [reflexivity|]
    | apply tidy_set_keep
    | apply tidy_delete
    | eapply tidy_ref_none; eassumption
    | eapply tidy_ref_none ].

Lemma connectToServer_tidy sc w :
  timersTidy w -> timersTidy (connectToServer sc w).
Proof.
  unfold timersTidy, connectToServer.
  destruct w as [a b c d e f g h k wsr rtr socks tm nx]. world_cbn. intros Ha.
  destruct (c_isConnecting sc), rtr, wsr, (c_useMockServer sc),
    (wsConstructorError (c_serverUrl sc)); world_cbn; tidy_up.
Qed.

Lemma closeConnection_tidy sc w :
  timersTidy w -> timersTidy (closeConnection sc w).
Proof.
  unfold timersTidy, closeConnection.
  destruct w as [a b c d e f g h k wsr rtr socks tm nx]. world_cbn. intros Ha.
  destruct rtr, wsr, (c_useMockServer sc); world_cbn; tidy_up.
Qed.

Lemma sendMessage_tidy sc w : timersTidy w -> timersTidy (sendMessage sc w).
Proof.
  unfold timersTidy, sendMessage, readyStateOf.
  destruct (negb (truthy (trim (c_message sc)))); [done|].
  destruct w as [a b c d e f g h k wsr rtr socks tm nx]. world_cbn. intros Ha.
  destruct (c_useMockServer sc); world_cbn; [tidy_up|].
  destruct wsr as [ws|]; world_cbn; [|tidy_up].
  destruct (socks !! ws) as [[? [] ? ? ?]|]; world_cbn; tidy_up.
Qed.

Lemma toggleMockServer_tidy sc enabled w :
  timersTidy w -> timersTidy (toggleMockServer sc enabled w).
Proof.
  intros Ha. unfold toggleMockServer.
  assert (Ha' : timersTidy (setUseMockServer enabled w)) by (by destruct w).
  destruct (c_isConnected sc).
  - apply (closeConnection_tidy sc) in Ha'.
    by destruct (closeConnection sc (setUseMockServer enabled w)).
  - by destruct w.
Qed.

Lemma onclose_tidy sc wasClean w :
  timersTidy w -> timersTidy (onclose sc wasClean w).
Proof.
  unfold timersTidy, onclose.
  destruct wasClean, (c_retryCount sc <? maxRetries);
    destruct w; world_cbn; intros Ha; tidy_up.
Qed.

Lemma connectTimeout_tidy ws w :
  timersTidy w -> timersTidy (connectTimeout ws w).
Proof.
  unfold timersTidy, connectTimeout, readyStateOf.
  destruct w as [a b c d e f g h k wsr rtr socks tm nx]. world_cbn. intros Ha.
  by destruct (socks !! ws) as [[? [] ? ? ?]|].
Qed.

Lemma step_tidy ev w : timersTidy w -> timersTidy (step ev w).
Proof.
  intros Ha. destruct ev; cbn [step].
  - by apply connectToServer_tidy.
  - by apply closeConnection_tidy.
  - by apply sendMessage_tidy.
  - by destruct w.
  - by apply toggleMockServer_tidy.
  - by destruct w.
  - by destruct w.
  - destruct (readyStateOf ws w) as [[]|]; try done. by destruct w.
  - destruct (readyStateOf ws w) as [[]|]; try done. by destruct w.
  - destruct (sockets w !! ws); [|done]. by destruct w.
  - destruct (sockets w !! ws) as [s|]; [|done].
    assert (Ha' : timersTidy (withReadyState ws CLOSED w)) by (by destruct w).
    destruct (readyState s); try done; by apply onclose_tidy.
  - destruct (timers w !! id) as [t|] eqn:Ht; [|done].
    assert (Ha' : timersTidy (clearTimeout id w)).
    { unfold timersTidy in *. destruct w; world_cbn in *. by apply tidy_delete. }
    destruct (body t) as [sc|ws|response]; cbn [runTimer].
    + by apply connectToServer_tidy.
    + by apply connectTimeout_tidy.
    + by destruct w.
Qed.

Lemma run_tidy evs : timersTidy (run evs initial).
Proof.
  assert (Hinit : timersTidy initial) by (by split).
  revert Hinit. generalize initial.
  induction evs as [|ev evs IH]; intros w Hw; [done|].
  simpl. apply IH. by apply step_tidy.
Qed.

(** C9 (amended): in every world a session can reach, a disconnect, and
    a connect that passes its [isConnecting] guard, cancel the retry timer
    held in the retry ref and empty the ref.  The identifier of a
    connection timeout is never in that ref, and neither call cancels such
    a timer: it stays pending.  A connection timeout that fires acts only
    if its own socket is still connecting; otherwise nothing but the fired
    timer changes.  The handle that a live disconnect or such a connect
    finds in the handle ref is no longer connecting afterwards. *)
Theorem retry_cancelled_timeout_left_inert evs sc :
  let w := run evs initial in
  (forall id, retryTimeoutRef w = Some id ->
     (timers (closeConnection sc w) !! id = None
      /\ retryTimeoutRef (closeConnection sc w) = None)
     /\ (c_isConnecting sc = false ->
         timers (connectToServer sc w) !! id = None
         /\ retryTimeoutRef (connectToServer sc w) = None))
  /\ (forall id d ws,
      timers w !! id = Some (mkTimer d (ConnectTimeout ws)) ->
      retryTimeoutRef w <> Some id
      /\ timers (closeConnection sc w) !! id
         = Some (mkTimer d (ConnectTimeout ws))
      /\ (c_isConnecting sc = false ->
          timers (connectToServer sc w) !! id
          = Some (mkTimer d (ConnectTimeout ws))))
  /\ (forall id d ws,
      timers w !! id = Some (mkTimer d (ConnectTimeout ws)) ->
      readyStateOf ws w <> Some CONNECTING ->
      step (Timer_fires id) w = clearTimeout id w)
  /\ (forall ws s, wsRef w = Some ws -> sockets w !! ws = Some s ->
      (c_useMockServer sc = false ->
       readyStateOf ws (closeConnection sc w) <> Some CONNECTING)
      /\ (c_isConnecting sc = false ->
       readyStateOf ws (connectToServer sc w) <> Some CONNECTING)).
Proof.
  intros w. destruct (run_tidy evs) as (Hlt & Href). fold w in Hlt, Href.
  destruct (cancelRetry_spec w) as (_ & Hcancel & _).
  split; [|split; [|split]].
  - intros id Hr. destruct (Href id Hr) as (Hid & _).
    rewrite Hr in Hcancel. split.
    + destruct (closeConnection_timers sc w) as (Hnone & Heq).
      split; [|exact Hnone]. rewrite Heq, Hcancel. apply lookup_delete_eq.
    + intros Hc.
      destruct (connectToServer_timers sc w Hc) as (Hnone & [Heq|[t Heq]]);
        (split; [|exact Hnone]); rewrite Heq, Hcancel.
      * apply lookup_delete_eq.
      * rewrite lookup_insert_ne by lia. apply lookup_delete_eq.
  - intros id d ws Ht.
    assert (Hne : retryTimeoutRef w <> Some id).
    { intros Hr. destruct (Href id Hr) as (_ & Hret).
      by specialize (Hret _ Ht). }
    assert (Hkept : timers (cancelRetry w) !! id
                    = Some (mkTimer d (ConnectTimeout ws))).
    { rewrite Hcancel. destruct (retryTimeoutRef w) as [id'|]; [|done].
      rewrite lookup_delete_ne; [done|congruence]. }
    split; [exact Hne|]. split.
    + destruct (closeConnection_timers sc w) as (_ & Heq). by rewrite Heq.
    + intros Hc. apply Hlt in Ht as Hid.
      destruct (connectToServer_timers sc w Hc) as (_ & [Heq|[t' Heq]]);
        rewrite Heq; [done|]. by rewrite lookup_insert_ne by lia.
  - intros id d ws. apply stale_connectTimeout_is_inert.
  - intros ws s Hr Hs. split.
    + intros Hm. unfold readyStateOf.
      rewrite (closeConnection_closes_handle _ _ _ _ Hm Hr Hs).
      intros [= Hbad]. by apply closeSocket_not_connecting in Hbad.
    + intros Hc. unfold readyStateOf.
      rewrite (connectToServer_closes_handle _ _ _ _ Hc Hr Hs).
      intros [= Hbad]. by apply closeSocket_not_connecting in Hbad.
Qed.

End CancellationFacts.

(** C9 (counterexample): the connection timeout set by the first connect
    (timer 1) is still pending after a disconnect.  A retry that the retry
    ref no longer holds (timer 3) survives a fresh connect, and when it
    fires it closes the socket of that fresh attempt and starts another.
    The timeout of a socket that a fresh connect has superseded (timer 2)
    is still pending after that connect, and when it fires it ends the
    connecting state and sets the timeout error while the new socket is
    still connecting. *)
Lemma timers_outlive_disconnect_and_connect :
  let connected := [Click_connect; Ws_open 0] in
  let twoAttempts := [Click_connect; Timer_fires 1; Click_connect;
                      Ws_close 0 false] in
  let orphaned := twoAttempts ++ [Ws_close 1 false; Click_connect] in
  let superseded := twoAttempts ++ [Click_connect] in
  (@offeredAll exampleHost (connected ++ [Click_disconnect]) initial = true
   /\ timers (@run exampleHost (connected ++ [Click_disconnect]) initial) !! 1
      = Some (mkTimer 5000 (ConnectTimeout 0)))
  /\ (@offeredAll exampleHost orphaned initial = true
      /\ timers (@run exampleHost orphaned initial) !! 3
         = Some (mkTimer 2000 (RetryConnect (scope_of initial)))
      /\ retryTimeoutRef (@run exampleHost orphaned initial) = None
      /\ wsRef (@run exampleHost orphaned initial) = Some 2
      /\ readyStateOf 2 (@run exampleHost orphaned initial) = Some CONNECTING
      /\ readyStateOf 2 (@run exampleHost (orphaned ++ [Timer_fires 3]) initial)
         = Some CLOSING
      /\ wsRef (@run exampleHost (orphaned ++ [Timer_fires 3]) initial)
         = Some 3)
  /\ (@offeredAll exampleHost superseded initial = true
      /\ wsRef (@run exampleHost superseded initial) = Some 2
      /\ readyStateOf 2 (@run exampleHost superseded initial) = Some CONNECTING
      /\ isConnecting (@run exampleHost superseded initial) = true
      /\ timers (@run exampleHost superseded initial) !! 2
         = Some (mkTimer 5000 (ConnectTimeout 1))
      /\ isConnecting (@run exampleHost (superseded ++ [Timer_fires 2]) initial)
         = false
      /\ error (@run exampleHost (superseded ++ [Timer_fires 2]) initial)
         = Some timeoutText
      /\ readyStateOf 2 (@run exampleHost (superseded ++ [Timer_fires 2]) initial)
         = Some CONNECTING).
Proof. vm_compute. repeat split; reflexivity. Qed.

Lemma retry_cancelled_timeout_left_inert_witness :
  let evs := [Click_connect; Ws_error 0; Ws_close 0 false] in
  let v := @run exampleHost evs initial in
  let w := @run exampleHost [Click_connect] initial in
  (retryTimeoutRef v = Some 2
   /\ timers (closeConnection (scope_of v) v) !! 2 = None
   /\ timers (@connectToServer exampleHost (scope_of v) v) !! 2 = None
   /\ timers (closeConnection (scope_of v) v) !! 1
      = Some (mkTimer 5000 (ConnectTimeout 0))
   /\ @step exampleHost (Timer_fires 1) v = clearTimeout 1 v)
  /\ (readyStateOf 0 w = Some CONNECTING
      /\ readyStateOf 0 (closeConnection (scope_of w) w) <> Some CONNECTING).
Proof.
  intros evs v w. split.
  - destruct (@retry_cancelled_timeout_left_inert exampleHost evs (scope_of v))
      as (Hcancel & Hkeep & Hinert & _). fold v in Hcancel, Hkeep, Hinert.
    destruct (Hcancel 2) as ((Hgone & _) & Hconnect); [reflexivity|].
    destruct Hconnect as (Hgone' & _); [reflexivity|].
    destruct (Hkeep 1 5000 0) as (_ & Hkept & _); [reflexivity|].
    split; [reflexivity|]. split; [exact Hgone|]. split; [exact Hgone'|].
    split; [exact Hkept|].
    apply (Hinert 1 5000 0); [reflexivity|discriminate].
  - destruct (@retry_cancelled_timeout_left_inert exampleHost [Click_connect]
                (scope_of w)) as (_ & _ & _ & Hhandle). fold w in Hhandle.
    destruct (Hhandle 0 (mkWebSocket (js "ws://localhost:8765") CONNECTING
                           (scope_of initial) [] None))
      as (Hclosed & _); [reflexivity|reflexivity|].
    split; [reflexivity|]. apply Hclosed. reflexivity.
Defined.

(** * Further properties *)

(** ** The transform *)

Section TransformFacts.
Context `{JsHost}.

Lemma mockServerResponse_nonempty (message : jsstring) :
  message <> [] ->
  mockServerResponse message
  = toUpperCase (charAt0 message) ++ slice1 message.
Proof.
  destruct message as [|c [|d rest]]; [done| |done].
  intros _. unfold mockServerResponse, charAt0, slice1. simpl.
  by rewrite app_nil_r.
Qed.

(** X1: the one-character branch of [mockServerResponse] is no special
    case: on every non-empty input the result is the upper-cased first
    code unit followed by the rest of the input. *)
Theorem mockServerResponse_single_rule (message : jsstring) :
  message <> [] ->
  mockServerResponse message
  = toUpperCase (charAt0 message) ++ slice1 message.
Proof. apply mockServerResponse_nonempty. Qed.

(** X2: on an input whose first code unit upper-cases to a single code
    unit that upper-casing leaves alone (every ASCII letter is such a
    unit), the transform keeps the length of the input and transforming
    twice is transforming once. *)
Theorem mockServerResponse_idempotent c c' (rest : jsstring) :
  toUpperCase [c] = [c'] -> toUpperCase [c'] = [c'] ->
  mockServerResponse (c :: rest) = c' :: rest
  /\ length (mockServerResponse (c :: rest)) = length (c :: rest)
  /\ mockServerResponse (mockServerResponse (c :: rest))
     = mockServerResponse (c :: rest).
Proof.
  intros Hc Hc'.
  assert (Hrule : forall d, toUpperCase [d] = [c'] ->
            mockServerResponse (d :: rest) = c' :: rest).
  { intros d Hd. rewrite mockServerResponse_nonempty by done.
    unfold charAt0, slice1. simpl. rewrite take_0, drop_0. by rewrite Hd. }
  rewrite (Hrule c Hc). split; [done|]. split; [done|]. by apply Hrule.
Qed.

End TransformFacts.

Lemma mockServerResponse_single_rule_witness :
  @mockServerResponse exampleHost (js "q") = js "Q"
  /\ @mockServerResponse exampleHost (js "q")
     = @toUpperCase exampleHost (charAt0 (js "q")) ++ slice1 (js "q").
Proof.
  split; [reflexivity|].
  apply (@mockServerResponse_single_rule exampleHost (js "q")). discriminate.
Defined.

Lemma mockServerResponse_idempotent_witness :
  @mockServerResponse exampleHost (js "hello world") = js "Hello world"
  /\ @mockServerResponse exampleHost (js "Hello world") = js "Hello world".
Proof.
  destruct (@mockServerResponse_idempotent exampleHost 104%N 72%N
              (js "ello world")) as (Hfirst & _ & _);
    [reflexivity|reflexivity|].
  destruct (@mockServerResponse_idempotent exampleHost 72%N 72%N
              (js "ello world")) as (Hagain & _ & _);
    [reflexivity|reflexivity|].
  split; [exact Hfirst|exact Hagain].
Defined.

(** ** Blank drafts and verbatim sends *)

Lemma trimStart_nil_iff (s : jsstring) :
  trimStart s = [] <-> forallb isWhiteSpace s = true.
Proof.
  induction s as [|c s IH]; simpl; [done|].
  destruct (isWhiteSpace c); simpl; [exact IH|]. split; discriminate.
Qed.

Lemma trimStart_head (s : jsstring) c rest :
  trimStart s = c :: rest -> isWhiteSpace c = false.
Proof.
  induction s as [|d s IH]; simpl; [done|].
  destruct (isWhiteSpace d) eqn:Hd; [exact IH|]. by intros [= <- _].
Qed.

Lemma forallb_rev (f : N -> bool) (s : jsstring) :
  forallb f (rev s) = forallb f s.
Proof.
  induction s as [|c s IH]; simpl; [done|].
  rewrite forallb_app, IH. simpl. rewrite andb_true_r. apply andb_comm.
Qed.

(** A draft is blank for [sendMessage] exactly when it is made of white
    space only (the empty draft included). *)
Lemma trim_blank_iff (s : jsstring) :
  truthy (trim s) = false <-> forallb isWhiteSpace s = true.
Proof.
  unfold trim, trimEnd. split.
  - intros Hb. apply trimStart_nil_iff.
    destruct (trimStart s) as [|c rest] eqn:Hs; [done|].
    apply trimStart_head in Hs as Hc.
    destruct (trimStart (rev (c :: rest))) as [|d r] eqn:Hr.
    + apply trimStart_nil_iff in Hr. rewrite forallb_rev in Hr.
      simpl in Hr. by rewrite Hc in Hr.
    + exfalso. simpl in Hb. destruct (rev r ++ [d]) eqn:Hbad; [|done].
      by apply app_nil in Hbad as [_ ?].
  - intros Hall. apply trimStart_nil_iff in Hall. by rewrite Hall.
Qed.

Section DraftFacts.
Context `{JsHost}.

(** X3: a draft made of white space only (the empty one included) is
    never sent: the Send button's callback and the Enter key leave the
    world exactly as it was, in either mode and whatever the connection;
    so do Shift+Enter and every other key, whatever the draft. *)
Theorem blank_draft_is_ignored sc w e :
  (forallb isWhiteSpace (c_message sc) = true ->
     sendMessage sc w = w /\ (handleKeyPress sc e w).1 = w)
  /\ (isEnter e = false -> handleKeyPress sc e w = (w, false)).
Proof.
  split.
  - intros Hall. apply trim_blank_iff in Hall.
    assert (Hsend : sendMessage sc w = w)
      by (unfold sendMessage; by rewrite Hall).
    split; [exact Hsend|]. unfold handleKeyPress. by destruct (isEnter e).
  - intros He. unfold handleKeyPress. by rewrite He.
Qed.

(** X4: a live send on an open handle hands the draft to that socket as
    it is, surrounding white space included (the trim only decides whether
    the draft is blank), logs the same text, and hands nothing to any
    other socket. *)
Theorem live_send_is_verbatim sc w ws s :
  truthy (trim (c_message sc)) = true ->
  c_useMockServer sc = false ->
  wsRef w = Some ws -> sockets w !! ws = Some s -> readyState s = OPEN ->
  sockets (sendMessage sc w) !! ws
  = Some (mkWebSocket (url s) OPEN (handlers s)
            (outbox s ++ [c_message sc]) (closedWith s))
  /\ (forall other, other <> ws ->
      sockets (sendMessage sc w) !! other = sockets w !! other)
  /\ messages (sendMessage sc w)
     = messages w ++ [mkMessage sent (c_message sc)]
  /\ timers (sendMessage sc w) = timers w.
Proof.
  intros Hb Hm Href Hs Hopen.
  assert (Ho : readyStateOf ws w = Some OPEN)
    by (unfold readyStateOf; by rewrite Hs, <- Hopen).
  rewrite (sendMessage_live_open _ _ _ Hb Hm Href Ho).
  destruct w; world_cbn in *. split; [|split; [|done]].
  - by rewrite list_lookup_alter_eq, Hs, <- Hopen.
  - intros other Hne. by rewrite list_lookup_alter_ne.
Qed.

End DraftFacts.

Lemma blank_draft_is_ignored_witness :
  let w := setMessage (js "   ") (@run exampleHost [Toggle_mock true; Click_connect] initial) in
  @step exampleHost Click_send w = w
  /\ @handleKeyPress exampleHost (scope_of w) (mkKey (js "Enter") true) w = (w, false).
Proof.
  intros w.
  destruct (@blank_draft_is_ignored exampleHost (scope_of w)
              w (mkKey (js "Enter") true)) as (Hblank & Hkey).
  split; [apply Hblank; reflexivity|apply Hkey; reflexivity].
Defined.

Lemma live_send_is_verbatim_witness :
  let w := @run exampleHost
             [Click_connect; Ws_open 0; Type_message (js " hi ")] initial in
  outbox <$> sockets (@step exampleHost Click_send w) !! 0 = Some [js " hi "].
Proof.
  intros w.
  destruct (@live_send_is_verbatim exampleHost (scope_of w) w 0
              (mkWebSocket (js "ws://localhost:8765") OPEN (scope_of initial)
                 [] None)) as (Hsock & _);
    [reflexivity..|].
  change (@step exampleHost Click_send w)
    with (@sendMessage exampleHost (scope_of w) w).
  by rewrite Hsock.
Defined.

(** ** The message log *)

Section LogFacts.
Context `{JsHost}.

Lemma grows_refl w w' : messages w' = messages w -> grows w w'.
Proof. intros Heq. exists []. rewrite Heq, app_nil_r. simpl. split; [done|lia]. Qed.

Lemma grows_one w w' m : messages w' = messages w ++ [m] -> grows w w'.
Proof. intros Heq. exists [m]. simpl. split; [done|lia]. Qed.

Lemma connectToServer_grows sc w : grows w (connectToServer sc w).
Proof.
  unfold connectToServer.
  destruct w as [? ? ? ? ? ? ? ? ? wsr rtr ? ? ?].
  destruct (c_isConnecting sc), rtr, wsr, (c_useMockServer sc),
    (wsConstructorError (c_serverUrl sc)); world_cbn;
    first [by apply grows_refl | by eapply grows_one].
Qed.

Lemma closeConnection_grows sc w : grows w (closeConnection sc w).
Proof.
  unfold closeConnection.
  destruct w as [? ? ? ? ? ? ? ? ? wsr rtr ? ? ?].
  destruct rtr, wsr, (c_useMockServer sc); world_cbn;
    first [by apply grows_refl | by eapply grows_one].
Qed.

Lemma sendMessage_grows sc w : grows w (sendMessage sc w).
Proof.
  unfold sendMessage.
  destruct (negb (truthy (trim (c_message sc)))); [by apply grows_refl|].
  unfold readyStateOf.
  destruct w as [? ? ? ? ? ? ? ? ? wsr rtr socks ? ?]. world_cbn.
  destruct (c_useMockServer sc); world_cbn; [by eapply grows_one|].
  destruct wsr as [ws|]; world_cbn; [|by apply grows_refl].
  destruct (socks !! ws) as [[? [] ? ? ?]|]; world_cbn;
    first [by apply grows_refl | by eapply grows_one].
Qed.

Lemma toggleMockServer_grows sc enabled w :
  grows w (toggleMockServer sc enabled w).
Proof.
  unfold toggleMockServer. destruct (c_isConnected sc).
  - destruct (closeConnection_grows sc (setUseMockServer enabled w))
      as (added & Heq & Hlen).
    exists added. split; [|done].
    destruct (closeConnection sc (setUseMockServer enabled w)).
    destruct w. exact Heq.
  - apply grows_refl. by destruct w.
Qed.

Lemma onclose_grows sc wasClean w : grows w (onclose sc wasClean w).
Proof.
  unfold onclose.
  destruct wasClean, (c_retryCount sc <? maxRetries); destruct w; world_cbn;
    by eapply grows_one.
Qed.

Lemma runTimer_grows b w : grows w (runTimer b w).
Proof.
  destruct b as [sc|ws|response]; world_cbn.
  - apply connectToServer_grows.
  - apply grows_refl. unfold connectTimeout, readyStateOf.
    destruct w as [? ? ? ? ? ? ? ? ? ? ? socks ? ?]. world_cbn.
    by destruct (socks !! ws) as [[? [] ? ? ?]|].
  - eapply grows_one. by destruct w.
Qed.

Lemma step_grows ev w : ev <> Click_clear -> grows w (step ev w).
Proof.
  intros Hev. destruct ev; world_cbn; try done.
  - apply connectToServer_grows.
  - apply closeConnection_grows.
  - apply sendMessage_grows.
  - apply toggleMockServer_grows.
  - apply grows_refl. by destruct w.
  - apply grows_refl. by destruct w.
  - unfold readyStateOf.
    destruct w as [? ? ? ? ? ? ? ? ? ? ? socks ? ?]. world_cbn.
    destruct (socks !! ws) as [[? [] ? ? ?]|]; world_cbn;
      first [by apply grows_refl | by eapply grows_one].
  - unfold readyStateOf.
    destruct w as [? ? ? ? ? ? ? ? ? ? ? socks ? ?]. world_cbn.
    destruct (socks !! ws) as [[? [] ? ? ?]|]; world_cbn;
      first [by apply grows_refl | by eapply grows_one].
  - destruct (sockets w !! ws); [|by apply grows_refl].
    eapply grows_one. by destruct w.
  - destruct (sockets w !! ws) as [s|]; [|by apply grows_refl].
    assert (Hpre : messages (withReadyState ws CLOSED w) = messages w)
      by (by destruct w).
    destruct (readyState s); try (by apply grows_refl);
      (destruct (onclose_grows (handlers s) wasClean
                   (withReadyState ws CLOSED w)) as (added & Heq & Hlen);
       exists added; by rewrite Heq, Hpre).
  - destruct (timers w !! id) as [t|]; [|by apply grows_refl].
    assert (Hpre : messages (clearTimeout id w) = messages w)
      by (by destruct w).
    destruct (runTimer_grows (body t) (clearTimeout id w))
      as (added & Heq & Hlen).
    exists added. by rewrite Heq, Hpre.
Qed.

(** X5: the log is append-only.  Over any sequence of events that contains
    no Clear History click, what was logged stays, unchanged and in order,
    at the front of the log, and each event adds at most one message. *)
Theorem log_is_append_only evs w :
  Forall (fun ev => ev <> Click_clear) evs ->
  messages w `prefix_of` messages (run evs w)
  /\ length (messages (run evs w)) <= length (messages w) + length evs.
Proof.
  revert w. induction evs as [|ev evs IH]; intros w Hall.
  - simpl. split; [done|lia].
  - apply Forall_cons in Hall as [Hev Hall]. simpl.
    destruct (step_grows ev w Hev) as (added & Heq & Hlen).
    destruct (IH (step ev w) Hall) as (Hpre & Hbound). split.
    + etrans; [|exact Hpre]. rewrite Heq. by apply prefix_app_r.
    + rewrite Heq, length_app in Hbound. lia.
Qed.

End LogFacts.

Lemma log_is_append_only_witness :
  let w := @run exampleHost
             [Toggle_mock true; Click_connect; Type_message (js "test")] initial in
  messages w `prefix_of`
    messages (@run exampleHost [Click_send; Timer_fires 1; Click_disconnect] w).
Proof.
  intros w.
  apply (@log_is_append_only exampleHost [Click_send; Timer_fires 1; Click_disconnect] w).
  repeat constructor; discriminate.
Defined.

(** ** The statistics panels *)

(** X6: the three counters of the statistics panel add up to the total:
    every logged message is counted once, as sent, received or system. *)
Theorem counters_partition_the_log (log : list Message) :
  length log = countOf sent log + countOf received log + countOf system log.
Proof.
  unfold countOf. induction log as [|[[] text] log IH]; [done|..];
    rewrite !filter_cons; simpl;
    repeat (case_decide; try done); simpl; lia.
Qed.

(** ** Invariants of every session *)

Section SessionFacts.
Context `{JsHost}.

Lemma run_preserves (P : World -> Prop) :
  (forall ev w, P w -> P (step ev w)) ->
  forall evs w, P w -> P (run evs w).
Proof.
  intros Hstep evs. induction evs as [|ev evs IH]; intros w Hw; [done|].
  simpl. apply IH. by apply Hstep.
Qed.

Lemma step_raises_only_when_off ev w :
  retryCount (step ev w) = retryCount w
  \/ retryCount (step ev w) = 0
  \/ isConnected (step ev w) = false.
Proof.
  destruct (step_retryCount ev w) as [?|[?|(ws & s & -> & Hs & _ & _)]]; auto.
  cbn [step]. rewrite Hs.
  destruct (readyState s); auto;
    right; right; apply onclose_retryCount.
Qed.

(** X7: whenever the component is connected its retry counter is 0, in
    every world a session can reach: the counter is only ever shown, as
    "Retry n/3", while disconnected. *)
Theorem connected_means_no_retries evs :
  isConnected (run evs initial) = true -> retryCount (run evs initial) = 0.
Proof.
  apply (run_preserves
           (fun w => isConnected w = true -> retryCount w = 0)); [|done].
  intros ev w Hinv Hon.
  destruct (isConnected w) eqn:Hwas.
  - destruct (step_raises_only_when_off ev w) as [Heq|[?|Hoff]];
      [rewrite Heq; by apply Hinv|done|congruence].
  - by apply step_into_connected.
Qed.

End SessionFacts.

Lemma connected_means_no_retries_witness :
  let evs := [Click_connect; Ws_error 0; Ws_close 0 false; Timer_fires 2;
              Ws_open 1] in
  retryCount (@run exampleHost [Click_connect; Ws_error 0; Ws_close 0 false]
                initial) = 1
  /\ retryCount (@run exampleHost evs initial) = 0.
Proof.
  intros evs. split; [reflexivity|].
  apply (@connected_means_no_retries exampleHost evs). reflexivity.
Defined.

(** ** Where retries come from *)

Section RetryOrigin.
Context `{JsHost}.

Ltac old_timer Hl :=
  repeat first
    [ apply lookup_insert_Some in Hl as [[_ Hl]|[_ Hl]]; [discriminate Hl|]
    | apply lookup_delete_Some in Hl as [_ Hl] ];
  try exact Hl.

Lemma noNewRetry_refl w w' : timers w' = timers w -> noNewRetry w w'.
Proof. intros Heq id d sc. by rewrite Heq. Qed.

Lemma noNewRetry_trans w1 w2 w3 :
  noNewRetry w1 w2 -> noNewRetry w2 w3 -> noNewRetry w1 w3.
Proof. intros H12 H23 id d sc Hl. by apply H12, H23. Qed.

Lemma connectToServer_noNewRetry sc w : noNewRetry w (connectToServer sc w).
Proof.
  unfold connectToServer, noNewRetry.
  destruct w as [? ? ? ? ? ? ? ? ? wsr rtr ? ? ?].
  destruct (c_isConnecting sc), rtr, wsr, (c_useMockServer sc),
    (wsConstructorError (c_serverUrl sc)); world_cbn;
    intros id d sc' Hl; old_timer Hl.
Qed.

Lemma closeConnection_noNewRetry sc w : noNewRetry w (closeConnection sc w).
Proof.
  intros id d sc' Hl.
  destruct (closeConnection_timers sc w) as (_ & Heq). rewrite Heq in Hl.
  destruct (cancelRetry_spec w) as (_ & Hcancel & _). rewrite Hcancel in Hl.
  destruct (retryTimeoutRef w); old_timer Hl.
Qed.

Lemma sendMessage_noNewRetry sc w : noNewRetry w (sendMessage sc w).
Proof.
  unfold sendMessage.
  destruct (negb (truthy (trim (c_message sc)))); [by apply noNewRetry_refl|].
  unfold readyStateOf, noNewRetry.
  destruct w as [? ? ? ? ? ? ? ? ? wsr rtr socks ? ?]. world_cbn.
  destruct (c_useMockServer sc); world_cbn;
    [intros id d sc' Hl; old_timer Hl|].
  destruct wsr as [ws|]; world_cbn; [|done].
  by destruct (socks !! ws) as [[? [] ? ? ?]|].
Qed.

Lemma toggleMockServer_noNewRetry sc enabled w :
  noNewRetry w (toggleMockServer sc enabled w).
Proof.
  unfold toggleMockServer. destruct (c_isConnected sc).
  - apply (noNewRetry_trans w (closeConnection sc (setUseMockServer enabled w))).
    + apply (noNewRetry_trans w (setUseMockServer enabled w));
        [apply noNewRetry_refl; by destruct w
        |apply closeConnection_noNewRetry].
    + apply noNewRetry_refl.
      by destruct (closeConnection sc (setUseMockServer enabled w)).
  - apply noNewRetry_refl. by destruct w.
Qed.

Lemma runTimer_noNewRetry b w : noNewRetry w (runTimer b w).
Proof.
  destruct b as [sc|ws|response]; world_cbn.
  - apply connectToServer_noNewRetry.
  - apply noNewRetry_refl. apply connectTimeout_schedules_nothing.
  - apply noNewRetry_refl. by destruct w.
Qed.

Lemma step_new_retry ev w id d sc :
  timers (step ev w) !! id = Some (mkTimer d (RetryConnect sc)) ->
  timers w !! id = Some (mkTimer d (RetryConnect sc))
  \/ exists ws s,
       ev = Ws_close ws false /\ sockets w !! ws = Some s
       /\ sc = handlers s
       /\ c_retryCount sc < maxRetries
       /\ d = 2000 * (c_retryCount sc + 1).
Proof.
  destruct ev; cbn [step]; intros Hl.
  - left. by apply (connectToServer_noNewRetry (scope_of w) w).
  - left. by apply (closeConnection_noNewRetry (scope_of w) w).
  - left. by apply (sendMessage_noNewRetry (scope_of w) w).
  - left. by destruct w.
  - left. by apply (toggleMockServer_noNewRetry (scope_of w) enabled w).
  - left. by destruct w.
  - left. by destruct w.
  - left. destruct (readyStateOf ws w) as [[]|]; try done. by destruct w.
  - left. destruct (readyStateOf ws w) as [[]|]; try done. by destruct w.
  - left. destruct (sockets w !! ws); [|done].
    by rewrite (proj1 (onerror_schedules_nothing _ w)) in Hl.
  - destruct (sockets w !! ws) as [s|] eqn:Hs; [|by left].
    assert (Hpre : timers (withReadyState ws CLOSED w) = timers w)
      by (by destruct w).
    assert (Hclose :
      timers (onclose (handlers s) wasClean (withReadyState ws CLOSED w)) !! id
        = Some (mkTimer d (RetryConnect sc)) ->
      timers w !! id = Some (mkTimer d (RetryConnect sc))
      \/ (wasClean = false /\ sc = handlers s
          /\ c_retryCount sc < maxRetries /\ d = 2000 * (c_retryCount sc + 1))).
    { rewrite <- Hpre. generalize (withReadyState ws CLOSED w). intros v Hv.
      unfold onclose in Hv. destruct wasClean; [left; by destruct v|].
      destruct (c_retryCount (handlers s) <? maxRetries) eqn:Hlt;
        [|left; by destruct v].
      apply Nat.ltb_lt in Hlt. destruct v; world_cbn in *.
      apply lookup_insert_Some in Hv as [[_ [= <- <-]]|[_ Hv]]; auto. }
    destruct (readyState s); [| | |by left];
      (destruct (Hclose Hl) as [?|(-> & ? & ? & ?)];
       [by left|right; by exists ws, s]).
  - left. destruct (timers w !! id0) as [t|] eqn:Ht; [|done].
    apply (runTimer_noNewRetry (body t)) in Hl.
    destruct w; world_cbn in *. by apply lookup_delete_Some in Hl as [_ Hl].
Qed.

(** X8: only an unclean close ever schedules a retry, and it does so with
    the linear delay: a retry that is pending after an event and was not
    pending before it was scheduled by the close handler of a socket that
    closed uncleanly, carries that handler's scope, whose [retryCount] [n]
    is below [maxRetries], and waits [2000 * (n + 1)] ms. *)
Theorem retry_scheduled_only_by_unclean_close ev w id d sc :
  timers (step ev w) !! id = Some (mkTimer d (RetryConnect sc)) ->
  timers w !! id = Some (mkTimer d (RetryConnect sc))
  \/ exists ws s,
       ev = Ws_close ws false /\ sockets w !! ws = Some s
       /\ sc = handlers s
       /\ c_retryCount sc < maxRetries
       /\ d = 2000 * (c_retryCount sc + 1).
Proof. apply step_new_retry. Qed.

(** X9: in every world a session can reach, each pending retry waits
    2000, 4000 or 6000 ms: 2000 ms times the retry number it was
    announced with, which is at most [maxRetries]. *)
Theorem pending_retries_wait_linearly evs id d sc :
  timers (run evs initial) !! id = Some (mkTimer d (RetryConnect sc)) ->
  c_retryCount sc < maxRetries
  /\ d = 2000 * (c_retryCount sc + 1)
  /\ (d = 2000 \/ d = 2000 * 2 \/ d = 2000 * 3).
Proof.
  intros Hl.
  assert (Hlin : retryDelaysLinear (run evs initial)).
  { apply (run_preserves retryDelaysLinear); [|by intros ? ? ? ?].
    intros ev w Hinv id' d' sc' Hl'.
    destruct (step_new_retry _ _ _ _ _ Hl')
      as [Hold|(ws & s & _ & _ & _ & Hlt & Hd)];
      [exact (Hinv _ _ _ Hold)|done]. }
  destruct (Hlin id d sc Hl) as (Hlt & ->). split; [done|]. split; [done|].
  unfold maxRetries in Hlt. lia.
Qed.

End RetryOrigin.

(** ** Replies and sends *)

Lemma countOf_snoc t log m :
  countOf t (log ++ [m])
  = countOf t log + (if decide (type m = t) then 1 else 0).
Proof.
  unfold countOf. rewrite filter_app, length_app, filter_cons, filter_nil.
  by case_decide.
Qed.

Lemma repliesOf_insert_fresh tm i t :
  tm !! i = None ->
  repliesOf (<[i:=t]> tm) = repliesOf tm + (if isReply t then 1 else 0).
Proof.
  intros Hfresh. unfold repliesOf. destruct (isReply t) eqn:Ht.
  - rewrite map_filter_insert_True by done.
    rewrite map_size_insert_None; [lia|].
    apply map_lookup_filter_None. by left.
  - rewrite map_filter_insert_not'; [lia|simpl; congruence|].
    intros y Hy. congruence.
Qed.

Lemma repliesOf_delete_other tm i :
  (forall t, tm !! i = Some t -> isReply t = false) ->
  repliesOf (delete i tm) = repliesOf tm.
Proof.
  intros Hother. unfold repliesOf. rewrite map_filter_delete_not; [done|].
  intros y Hy. simpl. rewrite (Hother y Hy). done.
Qed.

Lemma repliesOf_delete_reply tm i t :
  tm !! i = Some t -> isReply t = true ->
  S (repliesOf (delete i tm)) = repliesOf tm.
Proof.
  intros Hi Ht. unfold repliesOf. rewrite map_filter_delete.
  assert (Hin : filter (fun kv : nat * Timer => isReply kv.2 = true) tm !! i
                = Some t) by (by apply map_lookup_filter_Some).
  rewrite map_size_delete, Hin. simpl.
  assert (size (filter (fun kv : nat * Timer => isReply kv.2 = true) tm) <> 0).
  { intros Hz. apply map_size_empty_inv in Hz. by rewrite Hz in Hin. }
  lia.
Qed.

Section ReplyFacts.
Context `{JsHost}.

Lemma accounted_log log tm next ref m :
  type m <> received ->
  accounted log tm next ref -> accounted (log ++ [m]) tm next ref.
Proof.
  intros Hm (Hlt & Href & Hcount). split; [done|split; [done|]].
  rewrite !countOf_snoc. rewrite (decide_False (P := type m = received)) by done.
  case_decide; lia.
Qed.

Lemma accounted_ref_none log tm next ref :
  accounted log tm next ref -> accounted log tm next None.
Proof. intros (Hlt & Href & Hcount). by split; [|split]. Qed.

Lemma accounted_set log tm next ref t :
  isReply t = false ->
  accounted log tm next ref ->
  accounted log (<[next:=t]> tm) (S next) ref
  /\ accounted log (<[next:=t]> tm) (S next) (Some next).
Proof.
  intros Ht (Hlt & Href & Hcount).
  assert (Hfresh : tm !! next = None).
  { destruct (tm !! next) as [t'|] eqn:Hn; [|done].
    apply Hlt in Hn. lia. }
  assert (Hids : forall id t', <[next:=t]> tm !! id = Some t' -> id < S next).
  { intros id t' [[-> _]|[_ Hl]]%lookup_insert_Some; [lia|].
    apply Hlt in Hl. lia. }
  assert (Hc : countOf received log + repliesOf (<[next:=t]> tm)
               <= countOf sent log).
  { rewrite repliesOf_insert_fresh, Ht by done. lia. }
  split; (split; [exact Hids|split; [|exact Hc]]).
  - intros id ->. destruct (Href id eq_refl) as (Hid & Hnot).
    split; [lia|]. intros t'. rewrite lookup_insert_ne by lia. apply Hnot.
  - intros id [= <-]. split; [lia|]. intros t'.
    rewrite lookup_insert_eq. by intros [= <-].
Qed.

Lemma accounted_send log tm next ref text response :
  accounted log tm next ref ->
  accounted (log ++ [mkMessage sent text])
    (<[next:=mkTimer 100 (MockReply response)]> tm) (S next) ref.
Proof.
  intros (Hlt & Href & Hcount).
  assert (Hfresh : tm !! next = None).
  { destruct (tm !! next) as [t'|] eqn:Hn; [|done].
    apply Hlt in Hn. lia. }
  split; [|split].
  - intros id t' [[-> _]|[_ Hl]]%lookup_insert_Some; [lia|].
    apply Hlt in Hl. lia.
  - intros id Hr. destruct (Href id Hr) as (Hid & Hnot). split; [lia|].
    intros t'. rewrite lookup_insert_ne by lia. apply Hnot.
  - rewrite !countOf_snoc, repliesOf_insert_fresh by done. simpl. lia.
Qed.

Lemma accounted_clear_ref log tm next id :
  accounted log tm next (Some id) -> accounted log (delete id tm) next None.
Proof.
  intros (Hlt & Href & Hcount). split; [|split; [done|]].
  - intros id' t' [_ Hl]%lookup_delete_Some. by apply Hlt in Hl.
  - rewrite repliesOf_delete_other; [done|]. by apply Href.
Qed.

Lemma accounted_fire log tm next ref id t :
  tm !! id = Some t ->
  accounted log tm next ref ->
  match body t with
  | MockReply response =>
      accounted (log ++ [mkMessage received response]) (delete id tm) next ref
  | _ => accounted log (delete id tm) next ref
  end.
Proof.
  intros Hid (Hlt & Href & Hcount).
  assert (Hids : forall id' t', delete id tm !! id' = Some t' -> id' < next).
  { intros id' t' [_ Hl]%lookup_delete_Some. by apply Hlt in Hl. }
  assert (Hrefs : forall id', ref = Some id' ->
            id' < next /\ forall t', delete id tm !! id' = Some t' ->
                                     isReply t' = false).
  { intros id' Hr. destruct (Href id' Hr) as (? & Hnot). split; [done|].
    intros t' [_ Hl]%lookup_delete_Some. by apply Hnot. }
  destruct (body t) as [sc|ws|response] eqn:Hb;
    (split; [exact Hids|split; [exact Hrefs|]]).
  - rewrite repliesOf_delete_other; [done|].
    intros t' Ht'. rewrite Hid in Ht'. injection Ht' as <-.
    unfold isReply. by rewrite Hb.
  - rewrite repliesOf_delete_other; [done|].
    intros t' Ht'. rewrite Hid in Ht'. injection Ht' as <-.
    unfold isReply. by rewrite Hb.
  - rewrite !countOf_snoc. simpl.
    assert (Hr : isReply t = true) by (unfold isReply; by rewrite Hb).
    pose proof (repliesOf_delete_reply tm id t Hid Hr). lia.
Qed.

Lemma accounted_set_keep log tm next ref t :
  isReply t = false -> accounted log tm next ref ->
  accounted log (<[next:=t]> tm) (S next) ref.
Proof. intros Ht Ha. by apply accounted_set. Qed.

Lemma accounted_set_ref log tm next ref t :
  isReply t = false -> accounted log tm next ref ->
  accounted log (<[next:=t]> tm) (S next) (Some next).
Proof. intros Ht Ha. by eapply accounted_set. Qed.

Ltac account :=
  repeat first
    [ assumption
    | apply accounted_send
    | apply accounted_log; [discriminate|]
    | eapply accounted_set_ref; [reflexivity|]
    | apply accounted_set_keep; [reflexivity|]
    | apply accounted_clear_ref
    | eapply accounted_ref_none; eassumption ].

Lemma connectToServer_accounted sc w :
  repliesAccounted w -> repliesAccounted (connectToServer sc w).
Proof.
  unfold repliesAccounted, connectToServer.
  destruct w as [? ? ? ? ? ? ? ? ? wsr rtr ? ? ?]. world_cbn. intros Ha.
  destruct (c_isConnecting sc), rtr, wsr, (c_useMockServer sc),
    (wsConstructorError (c_serverUrl sc)); world_cbn; account.
Qed.

Lemma closeConnection_accounted sc w :
  repliesAccounted w -> repliesAccounted (closeConnection sc w).
Proof.
  unfold repliesAccounted, closeConnection.
  destruct w as [? ? ? ? ? ? ? ? ? wsr rtr ? ? ?]. world_cbn. intros Ha.
  destruct rtr, wsr, (c_useMockServer sc); world_cbn; account.
Qed.

Lemma sendMessage_accounted sc w :
  repliesAccounted w -> repliesAccounted (sendMessage sc w).
Proof.
  unfold repliesAccounted, sendMessage, readyStateOf.
  destruct (negb (truthy (trim (c_message sc)))); [done|].
  destruct w as [? ? ? ? ? ? ? ? ? wsr rtr socks ? ?]. world_cbn. intros Ha.
  destruct (c_useMockServer sc); world_cbn; [account|].
  destruct wsr as [ws|]; world_cbn; [|account].
  destruct (socks !! ws) as [[? [] ? ? ?]|]; world_cbn; account.
Qed.

Lemma toggleMockServer_accounted sc enabled w :
  repliesAccounted w -> repliesAccounted (toggleMockServer sc enabled w).
Proof.
  intros Ha. unfold toggleMockServer.
  assert (Ha' : repliesAccounted (setUseMockServer enabled w))
    by (by destruct w).
  destruct (c_isConnected sc).
  - apply (closeConnection_accounted sc) in Ha'.
    by destruct (closeConnection sc (setUseMockServer enabled w)).
  - by destruct w.
Qed.

Lemma onclose_accounted sc wasClean w :
  repliesAccounted w -> repliesAccounted (onclose sc wasClean w).
Proof.
  unfold repliesAccounted, onclose.
  destruct wasClean, (c_retryCount sc <? maxRetries);
    destruct w; world_cbn; intros Ha; account.
Qed.

Lemma connectTimeout_accounted ws w :
  repliesAccounted w -> repliesAccounted (connectTimeout ws w).
Proof.
  unfold repliesAccounted, connectTimeout, readyStateOf.
  destruct w as [? ? ? ? ? ? ? ? ? ? ? socks ? ?]. world_cbn. intros Ha.
  by destruct (socks !! ws) as [[? [] ? ? ?]|].
Qed.

Lemma step_accounted ev w :
  neitherPushNorClear ev = true ->
  repliesAccounted w -> repliesAccounted (step ev w).
Proof.
  intros Hev Ha. destruct ev; try discriminate Hev; cbn [step].
  - by apply connectToServer_accounted.
  - by apply closeConnection_accounted.
  - by apply sendMessage_accounted.
  - by apply toggleMockServer_accounted.
  - by destruct w.
  - by destruct w.
  - destruct (readyStateOf ws w) as [[]|]; try done.
    unfold repliesAccounted in *. destruct w; world_cbn in *. account.
  - destruct (sockets w !! ws); [|done].
    unfold repliesAccounted in *. destruct w; world_cbn in *. account.
  - destruct (sockets w !! ws) as [s|]; [|done].
    assert (Ha' : repliesAccounted (withReadyState ws CLOSED w))
      by (by destruct w).
    destruct (readyState s); try done; by apply onclose_accounted.
  - destruct (timers w !! id) as [t|] eqn:Ht; [|done].
    assert (Hfire := accounted_fire _ _ _ _ id t Ht Ha).
    destruct (body t) as [sc|ws|response]; cbn [runTimer].
    + apply connectToServer_accounted. by destruct w.
    + apply connectTimeout_accounted. by destruct w.
    + by destruct w.
Qed.

(** X10: in a session in which the server pushes nothing and the log is
    not cleared, every received message, and every simulated reply still
    on its way, answers a sent message of its own: the "Server Responses"
    counter never exceeds the "Client Messages" counter. *)
Theorem responses_never_outnumber_sends evs :
  forallb neitherPushNorClear evs = true ->
  countOf received (messages (run evs initial))
    + pendingReplies (run evs initial)
  <= countOf sent (messages (run evs initial)).
Proof.
  intros Hevs.
  assert (Hinit : repliesAccounted initial).
  { split; [|split]; [done|done|]. vm_compute. lia. }
  assert (Ha : repliesAccounted (run evs initial)).
  { revert Hevs Hinit. generalize initial.
    induction evs as [|ev evs IH]; intros w Hevs Hw; [done|].
    simpl in Hevs. apply andb_true_iff in Hevs as [Hev Hevs].
    simpl. apply IH; [done|]. by apply step_accounted. }
  apply Ha.
Qed.
End ReplyFacts.

Lemma responses_never_outnumber_sends_witness :
  let w := @run exampleHost
             [Toggle_mock true; Click_connect; Type_message (js "a");
              Click_send; Type_message (js "b"); Click_send; Timer_fires 1]
             initial in
  countOf received (messages w) = 1 /\ pendingReplies w = 1
  /\ countOf received (messages w) + pendingReplies w
     <= countOf sent (messages w).
Proof.
  intros w. split; [reflexivity|]. split; [reflexivity|].
  apply (@responses_never_outnumber_sends exampleHost). reflexivity.
Defined.

Lemma retry_scheduled_only_by_unclean_close_witness :
  let w := @run exampleHost [Click_connect] initial in
  timers w !! 2 = None
  /\ exists ws s,
       Ws_close 0 false = Ws_close ws false /\ sockets w !! ws = Some s
       /\ scope_of initial = handlers s
       /\ c_retryCount (scope_of initial) < maxRetries
       /\ 2000 = 2000 * (c_retryCount (scope_of initial) + 1).
Proof.
  intros w. split; [reflexivity|].
  destruct (@retry_scheduled_only_by_unclean_close exampleHost
              (Ws_close 0 false) w 2 2000 (scope_of initial))
    as [Hold|Hnew]; [reflexivity|discriminate Hold|exact Hnew].
Defined.

Lemma pending_retries_wait_linearly_witness :
  let evs := [Click_connect; Ws_error 0; Ws_close 0 false; Click_connect;
              Ws_error 1; Ws_close 1 false] in
  delay <$> timers (@run exampleHost evs initial) !! 4 = Some 4000
  /\ (4000 = 2000 \/ 4000 = 2000 * 2 \/ 4000 = 2000 * 3).
Proof.
  intros evs. split; [reflexivity|].
  destruct (@pending_retries_wait_linearly exampleHost evs 4 4000
              (mkScope [] false (js "ws://localhost:8765") false false 1))
    as (_ & _ & Hd); [reflexivity|exact Hd].
Defined.

(** ** Disconnecting, again *)

Section DisconnectMore.
Context `{JsHost}.

(** X11: a live disconnect is idempotent: disconnecting twice leaves the
    same world as disconnecting once.  A simulated disconnect is not: the
    second one logs its system message again, and changes nothing else. *)
Theorem disconnect_twice sc w :
  (c_useMockServer sc = false ->
     closeConnection sc (closeConnection sc w) = closeConnection sc w)
  /\ (c_useMockServer sc = true ->
     closeConnection sc (closeConnection sc w)
     = addMessage system (redCircle ++ js " Disconnected from Mock Server")
         (closeConnection sc w)).
Proof.
  unfold closeConnection.
  destruct w as [? ? ? ? ? ? ? ? ? wsr rtr ? ? ?].
  split; intros ->; destruct rtr, wsr; reflexivity.
Qed.

(** X12: a disconnect issued while a simulated reply is on its way does
    not suppress it: the reply timer is still pending after the
    disconnect, and when it fires the received event is logged, after the
    disconnect's own system message. *)
Theorem reply_survives_disconnect sc w :
  truthy (trim (c_message sc)) = true ->
  c_useMockServer sc = true ->
  retryTimeoutRef w <> Some (nextTimerId w) ->
  let reply := mkTimer 100 (MockReply (mockServerResponse (c_message sc))) in
  let w1 := closeConnection sc (sendMessage sc w) in
  isConnected w1 = false
  /\ timers w1 !! nextTimerId w = Some reply
  /\ messages (step (Timer_fires (nextTimerId w)) w1)
     = messages w
       ++ [mkMessage sent (c_message sc);
           mkMessage system (redCircle ++ js " Disconnected from Mock Server");
           mkMessage received (mockServerResponse (c_message sc))].
Proof.
  intros Hb Hm Hfresh reply w1. subst w1 reply.
  rewrite (sendMessage_mock _ _ Hb Hm), (closeConnection_mock _ _ Hm).
  unfold cancelRetry.
  destruct w as [? msgs ? ? ? ? ? ? ? wsr rtr ? tm next]; world_cbn in *.
  assert (Hlook : forall i, Some i <> Some next ->
            delete i (<[next:=mkTimer 100
                          (MockReply (mockServerResponse (c_message sc)))]> tm)
              !! next
            = Some (mkTimer 100 (MockReply (mockServerResponse (c_message sc))))).
  { intros i Hi. rewrite lookup_delete_ne by congruence.
    apply lookup_insert_eq. }
  destruct rtr as [i|]; world_cbn.
  - rewrite (Hlook i Hfresh). world_cbn.
    repeat split. by rewrite <- !app_assoc.
  - rewrite lookup_insert_eq. world_cbn.
    repeat split. by rewrite <- !app_assoc.
Qed.

End DisconnectMore.

Lemma disconnect_twice_witness :
  let w := @run exampleHost [Click_connect; Ws_open 0] initial in
  let m := @run exampleHost [Toggle_mock true; Click_connect] initial in
  closeConnection (scope_of w) (closeConnection (scope_of w) w)
  = closeConnection (scope_of w) w
  /\ length (messages (closeConnection (scope_of m)
                         (closeConnection (scope_of m) m)))
     = S (length (messages (closeConnection (scope_of m) m))).
Proof.
  intros w m. split.
  - apply (disconnect_twice (scope_of w) w). reflexivity.
  - destruct (disconnect_twice (scope_of m) m) as (_ & Hmock).
    rewrite Hmock by reflexivity. reflexivity.
Defined.

Lemma reply_survives_disconnect_witness :
  let w := @run exampleHost
             [Toggle_mock true; Click_connect; Type_message (js "test")] initial in
  content <$> last (messages (@run exampleHost
                       [Click_send; Click_disconnect; Timer_fires 1] w))
  = Some (js "Test").
Proof.
  intros w.
  destruct (@reply_survives_disconnect exampleHost (scope_of w) w)
    as (_ & _ & Hlog); [reflexivity|reflexivity|discriminate|].
  change (@run exampleHost [Click_send; Click_disconnect; Timer_fires 1] w)
    with (@step exampleHost (Timer_fires (nextTimerId w))
            (closeConnection (scope_of w)
               (@sendMessage exampleHost (scope_of w) w))).
  rewrite Hlog. reflexivity.
Defined.

(** ** Connecting: the rejected URL and the manual retry *)

Section ConnectMore.
Context `{JsHost}.

(** X13: when the [WebSocket] constructor rejects the URL, a live connect
    that passed its guard creates no socket and schedules nothing (neither
    a connection timeout nor a retry); it ends not connecting, with both
    refs empty, the status "Connection Failed", the thrown message in the
    error, one system event logged, and [retryCount] and the connected
    flag as they were.  The handle it found in the ref has been closed all
    the same. *)
Theorem rejected_url_creates_nothing sc w thrown :
  c_isConnecting sc = false ->
  c_useMockServer sc = false ->
  wsConstructorError (c_serverUrl sc) = Some thrown ->
  let w' := connectToServer sc w in
  length (sockets w') = length (sockets w)
  /\ timers w' = timers (cancelRetry w)
  /\ wsRef w' = None /\ retryTimeoutRef w' = None
  /\ isConnecting w' = false /\ isConnected w' = isConnected w
  /\ retryCount w' = retryCount w
  /\ connectionStatus w' = js "Connection Failed"
  /\ error w' = Some (js "Failed to establish connection: " ++ thrown)
  /\ messages w'
     = messages w
       ++ [mkMessage system (crossMark ++ js " Failed to establish connection")]
  /\ (forall ws s, wsRef w = Some ws -> sockets w !! ws = Some s ->
      sockets w' !! ws = Some (closeSocket None s)).
Proof.
  intros Hc Hm Hthrow w'. subst w'.
  unfold connectToServer, cancelRetry. rewrite Hc, Hm.
  destruct w as [? ? ? ? ? ? ? ? ? wsr rtr socks ? ?]; world_cbn.
  destruct rtr, wsr; world_cbn; rewrite Hthrow; world_cbn;
    rewrite ?length_alter; repeat split; try done;
    intros ws s [= <-] Hs; by rewrite list_lookup_alter_eq, Hs.
Qed.

(** X14: a connect made from the page, in live mode, whose socket then
    closes uncleanly, advances the retry counter by one and schedules the
    retry [2000 * (retryCount + 1)] ms away, as long as the counter is
    below [maxRetries]; at [maxRetries] it leaves the counter, schedules no
    retry and shows the terminal error.  (Retries made by hand thus go
    through 2000, 4000, 6000 ms and then stop.) *)
Theorem manual_retry_advances_count w :
  isConnecting w = false ->
  useMockServer w = false ->
  wsConstructorError (serverUrl w) = None ->
  let w' := run [Click_connect; Ws_close (length (sockets w)) false] w in
  (retryCount w < maxRetries ->
     retryCount w' = retryCount w + 1
     /\ timers w' !! S (nextTimerId w)
        = Some (mkTimer (2000 * (retryCount w + 1)) (RetryConnect (scope_of w)))
     /\ retryTimeoutRef w' = Some (S (nextTimerId w))
     /\ error w' = Some (retryingText (retryCount w + 1)))
  /\ (maxRetries <= retryCount w ->
     retryCount w' = retryCount w
     /\ retryTimeoutRef w' = None
     /\ timers w' = timers (step Click_connect w)
     /\ error w' = Some terminalText).
Proof.
  intros Hc Hm Hurl w'. subst w'.
  assert (Hconnect :
    exists v, step Click_connect w = v
      /\ sockets v !! length (sockets w)
         = Some (mkWebSocket (serverUrl w) CONNECTING (scope_of w) [] None)
      /\ retryCount v = retryCount w
      /\ nextTimerId v = S (nextTimerId w)
      /\ retryTimeoutRef v = None).
  { eexists. split; [reflexivity|]. cbn [step]. unfold connectToServer.
    destruct w as [? ? ? ? url ? ? ? ? wsr rtr socks tm next];
      world_cbn in *. subst. rewrite Hurl.
    assert (Hnew : forall f : WebSocket -> WebSocket, forall i new,
              (alter f i socks ++ [new]) !! length socks = Some new).
    { intros f i new. rewrite lookup_app_r by (by rewrite length_alter).
      by rewrite length_alter, Nat.sub_diag. }
    assert (Hnew' : forall new : WebSocket,
              (socks ++ [new]) !! length socks = Some new).
    { intros new. rewrite lookup_app_r by done. by rewrite Nat.sub_diag. }
    destruct rtr, wsr; world_cbn; by rewrite ?Hnew, ?Hnew'. }
  destruct Hconnect as (v & Hv & Hsock & Hrc & Hnext & Href).
  change (run [Click_connect; Ws_close (length (sockets w)) false] w)
    with (step (Ws_close (length (sockets w)) false) (step Click_connect w)).
  rewrite Hv. cbn [step]. rewrite Hsock. cbn [readyState handlers].
  assert (Hpre : retryCount (withReadyState (length (sockets w)) CLOSED v)
                 = retryCount v
               /\ nextTimerId (withReadyState (length (sockets w)) CLOSED v)
                  = nextTimerId v
               /\ retryTimeoutRef (withReadyState (length (sockets w)) CLOSED v)
                  = retryTimeoutRef v
               /\ timers (withReadyState (length (sockets w)) CLOSED v)
                  = timers v) by (by destruct v).
  destruct Hpre as (Hrc' & Hnext' & Href' & Htimers').
  split.
  - intros Hlt.
    destruct (onclose_below_max (scope_of w)
                (withReadyState (length (sockets w)) CLOSED v))
      as (Ht & _ & Hr & Hcount & Herr); [by destruct w|].
    rewrite Hnext', Hnext in Ht, Hr.
    replace (c_retryCount (scope_of w)) with (retryCount w) in *
      by (by destruct w).
    rewrite Ht, lookup_insert_eq. done.
  - intros Hge.
    destruct (onclose_at_max (scope_of w)
                (withReadyState (length (sockets w)) CLOSED v))
      as (Ht & Hr & Hcount & Herr); [by destruct w|].
    rewrite Ht, Hr, Hcount, Htimers', Href', Hrc'. done.
Qed.

End ConnectMore.

Lemma rejected_url_creates_nothing_witness :
  let w := setServerUrl (js "ftp://localhost") initial in
  let w' := @connectToServer exampleHost (scope_of w) w in
  sockets w' = [] /\ timers w' = ∅ /\ isConnecting w' = false
  /\ connectionStatus w' = js "Connection Failed".
Proof.
  intros w w'.
  destruct (@rejected_url_creates_nothing exampleHost (scope_of w) w
              (js "The URL's scheme must be either 'http', 'https', 'ws', or 'wss'."))
    as (Hlen & Htimers & _ & _ & Hcing & _ & _ & Hstatus & _);
    [reflexivity..|].
  split; [by apply nil_length_inv|].
  split; [exact Htimers|]. split; [exact Hcing|exact Hstatus].
Defined.

Lemma manual_retry_advances_count_witness :
  let w1 := @run exampleHost [Click_connect; Ws_close 0 false] initial in
  let w2 := @run exampleHost [Click_connect; Ws_close 1 false] w1 in
  let w3 := @run exampleHost [Click_connect; Ws_close 2 false] w2 in
  let w4 := @run exampleHost [Click_connect; Ws_close 3 false] w3 in
  (retryCount w1 = 1 /\ retryCount w2 = 2 /\ retryCount w3 = 3)
  /\ (delay <$> timers w2 !! 4 = Some (2000 * 2)
      /\ delay <$> timers w3 !! 6 = Some (2000 * 3))
  /\ (retryCount w4 = 3 /\ error w4 = Some terminalText
      /\ retryTimeoutRef w4 = None).
Proof.
  intros w1 w2 w3 w4.
  destruct (@manual_retry_advances_count exampleHost initial)
    as (H1 & _); [reflexivity..|].
  destruct (@manual_retry_advances_count exampleHost w1)
    as (H2 & _); [reflexivity..|].
  destruct (@manual_retry_advances_count exampleHost w2)
    as (H3 & _); [reflexivity..|].
  destruct (@manual_retry_advances_count exampleHost w3)
    as (_ & H4); [reflexivity..|].
  destruct H1 as (Hc1 & _); [vm_compute; lia|].
  destruct H2 as (Hc2 & Ht2 & _); [vm_compute; lia|].
  destruct H3 as (Hc3 & Ht3 & _); [vm_compute; lia|].
  destruct H4 as (Hc4 & Hr4 & _ & He4); [vm_compute; lia|].
  split; [|split].
  - split; [exact Hc1|]. split; [exact Hc2|exact Hc3].
  - split.
    + exact (f_equal (fmap delay) Ht2).
    + exact (f_equal (fmap delay) Ht3).
  - split; [exact Hc4|]. split; [exact He4|exact Hr4].
Defined.

(** ** Unmounting *)

Lemma unmountCleanup_sockets w :
  sockets (unmountCleanup w)
  = match wsRef w with
    | Some ws => alter (closeSocket None) ws (sockets w)
    | None => sockets w
    end.
Proof. by destruct w as [? ? ? ? ? ? ? ? ? [ws|] [id|] ? ? ?]. Qed.

Lemma unmountCleanup_timers w :
  timers (unmountCleanup w)
  = match retryTimeoutRef w with
    | Some id => delete id (timers w)
    | None => timers w
    end.
Proof. by destruct w as [? ? ? ? ? ? ? ? ? [ws|] [id|] ? ? ?]. Qed.

Lemma closeSocket_idempotent args s :
  closeSocket args (closeSocket args s) = closeSocket args s.
Proof.
  unfold closeSocket. by destruct (readyState s) eqn:Hr; simpl; rewrite ?Hr.
Qed.

Lemma closeSocket_not_open args s : readyState (closeSocket args s) <> OPEN.
Proof.
  unfold closeSocket. destruct (readyState s) eqn:Hr; simpl; congruence.
Qed.

(** X15: the cleanup run at unmount cancels the retry timer held in the
    ref and leaves the handle held in the ref neither connecting nor open;
    every other pending timer (connection timeouts, simulated replies)
    stays pending, the React state and the log are untouched, and running
    the cleanup twice is running it once. *)
Theorem unmount_cleanup_effects w :
  (forall id, retryTimeoutRef w = Some id ->
     timers (unmountCleanup w) !! id = None)
  /\ (forall ws s, wsRef w = Some ws -> sockets w !! ws = Some s ->
      readyStateOf ws (unmountCleanup w) <> Some CONNECTING
      /\ readyStateOf ws (unmountCleanup w) <> Some OPEN)
  /\ (forall id t, timers w !! id = Some t -> retryTimeoutRef w <> Some id ->
      timers (unmountCleanup w) !! id = Some t)
  /\ (messages (unmountCleanup w) = messages w
      /\ isConnected (unmountCleanup w) = isConnected w
      /\ error (unmountCleanup w) = error w
      /\ retryCount (unmountCleanup w) = retryCount w)
  /\ unmountCleanup (unmountCleanup w) = unmountCleanup w.
Proof.
  split; [|split; [|split; [|split]]].
  - intros id Href. rewrite unmountCleanup_timers, Href.
    apply lookup_delete_eq.
  - intros ws s Href Hs. unfold readyStateOf.
    rewrite unmountCleanup_sockets, Href, list_lookup_alter_eq, Hs. simpl.
    split; intros [= Hbad];
      [by apply closeSocket_not_connecting in Hbad
      |by apply closeSocket_not_open in Hbad].
  - intros id t Ht Hne. rewrite unmountCleanup_timers.
    destruct (retryTimeoutRef w) as [id'|]; [|done].
    rewrite lookup_delete_ne; [done|congruence].
  - by destruct w as [? ? ? ? ? ? ? ? ? [ws|] [id|] ? ? ?].
  - unfold unmountCleanup.
    destruct w as [a b c d e f g h k [ws|] [id|] socks tm nx];
      cbn [retryTimeoutRef wsRef clearTimeout ws_close withTimers withSockets
           timers sockets nextTimerId];
      rewrite ?delete_delete_eq; try done; f_equal;
      apply list_eq; intros i;
      (destruct (decide (i = ws)) as [->|Hne];
       [rewrite !list_lookup_alter_eq; destruct (socks !! ws) as [s|]; [|done];
        simpl; by rewrite closeSocket_idempotent
       |by rewrite !list_lookup_alter_ne]).
Qed.

Lemma unmount_cleanup_effects_witness :
  let w := @run exampleHost [Click_connect; Ws_error 0; Ws_close 0 false;
                           Timer_fires 2] initial in
  let v := @run exampleHost [Click_connect; Ws_error 0; Ws_close 0 false] initial in
  (readyStateOf 1 w = Some CONNECTING
   /\ readyStateOf 1 (unmountCleanup w) <> Some CONNECTING)
  /\ timers (unmountCleanup v) !! 2 = None
  /\ timers (unmountCleanup v) !! 1 = Some (mkTimer 5000 (ConnectTimeout 0)).
Proof.
  intros w v. split; [|split].
  - split; [reflexivity|].
    destruct (unmount_cleanup_effects w) as (_ & Hhandle & _).
    apply (Hhandle 1 (mkWebSocket (js "ws://localhost:8765") CONNECTING
                        (scope_of initial) [] None)); reflexivity.
  - destruct (unmount_cleanup_effects v) as (Hretry & _).
    apply Hretry. reflexivity.
  - destruct (unmount_cleanup_effects v) as (_ & _ & Hother & _).
    apply Hother; [reflexivity|discriminate].
Defined.

(** ** The data-flow panel *)

Lemma lastOf_snoc_same t log text :
  lastOf t (log ++ [mkMessage t text]) = Some text.
Proof.
  unfold lastOf. rewrite filter_app, filter_cons, filter_nil.
  rewrite decide_True by done. by rewrite last_snoc.
Qed.

Lemma lastOf_snoc_other t log m :
  type m <> t -> lastOf t (log ++ [m]) = lastOf t log.
Proof.
  intros Hne. unfold lastOf. rewrite filter_app, filter_cons, filter_nil.
  rewrite decide_False by done. by rewrite app_nil_r.
Qed.

Section PanelFacts.
Context `{JsHost}.

(** X16: after a simulated send of a non-blank text the panel's last sent
    message is that text and its last received message is still the
    previous one; once the reply timer has fired, the last received
    message is the transform of the text. *)
Theorem panel_shows_last_exchange sc w :
  truthy (trim (c_message sc)) = true ->
  c_useMockServer sc = true ->
  let w1 := sendMessage sc w in
  lastOf sent (messages w1) = Some (c_message sc)
  /\ lastOf received (messages w1) = lastOf received (messages w)
  /\ lastOf received (messages (step (Timer_fires (nextTimerId w)) w1))
     = Some (mockServerResponse (c_message sc))
  /\ lastOf sent (messages (step (Timer_fires (nextTimerId w)) w1))
     = Some (c_message sc).
Proof.
  intros Hb Hm w1. subst w1. rewrite (sendMessage_mock _ _ Hb Hm).
  destruct w; world_cbn. rewrite lookup_insert_eq. world_cbn.
  split; [apply lastOf_snoc_same|].
  split; [by apply lastOf_snoc_other|].
  split; [apply lastOf_snoc_same|].
  rewrite lastOf_snoc_other by done. apply lastOf_snoc_same.
Qed.

End PanelFacts.

Lemma panel_shows_last_exchange_witness :
  let w := @run exampleHost
             [Toggle_mock true; Click_connect; Type_message (js "test")] initial in
  lastOf sent (messages (@run exampleHost [Click_send] w)) = Some (js "test")
  /\ lastOf received (messages (@run exampleHost [Click_send] w)) = None
  /\ lastOf received (messages (@run exampleHost [Click_send; Timer_fires 1] w))
     = Some (js "Test").
Proof.
  intros w.
  destruct (@panel_shows_last_exchange exampleHost (scope_of w) w)
    as (Hsent & Hold & Hnew & _); [reflexivity|reflexivity|].
  split; [exact Hsent|]. split; [exact Hold|exact Hnew].
Defined.

(** ** The bound on retryCount, once more *)

(** X17: in every world a session can reach, [retryCount] is at most
    [maxRetries], and so is the count carried by every socket's handlers
    and by every pending retry. *)
Theorem retryCount_stays_within_maxRetries `{JsHost} evs :
  let w := run evs initial in
  retryCount w <= maxRetries
  /\ (forall ws s, sockets w !! ws = Some s ->
      c_retryCount (handlers s) <= maxRetries)
  /\ (forall id d sc, timers w !! id = Some (mkTimer d (RetryConnect sc)) ->
      c_retryCount sc <= maxRetries).
Proof.
  intros w. destruct (run_bounded evs initial initial_bounded)
    as (Hrc & Hsocks & Htimers).
  split; [exact Hrc|]. split.
  - intros ws s Hs. by eapply Forall_lookup_1 in Hsocks.
  - intros id d sc Ht. exact (Htimers id _ Ht).
Qed.

Lemma retryCount_stays_within_maxRetries_witness :
  let evs := [Click_connect; Ws_close 0 false; Click_connect; Ws_close 1 false;
              Click_connect; Ws_close 2 false; Click_connect;
              Ws_close 3 false] in
  retryCount (@run exampleHost evs initial) = 3
  /\ c_retryCount (handlers (mkWebSocket (js "ws://localhost:8765") CLOSED
                     (mkScope [] false (js "ws://localhost:8765") false false 3)
                     [] None)) <= maxRetries.
Proof.
  intros evs. split; [reflexivity|].
  destruct (@retryCount_stays_within_maxRetries exampleHost evs)
    as (_ & Hsocks & _).
  apply (Hsocks 3). reflexivity.
Defined.
